(** * Covenant: contract state machine, key registry and replicated store

    A shallow embedding of [src/server/node/covenant.js].  Contract
    documents and steps are records, the per-step signature object is a
    finite map, the files under [data/] and the two in-memory caches are
    finite maps gathered in a [World], and every handler is a function
    from the world and the request to a response and the next world.

    What the service cannot decide for itself (the wall clock, the random
    identifiers and keypairs of [sessionless], the answers of the remote
    object store [bdo]) is handed to a handler in an [Env]: one field per
    external call of the request. *)

From stdpp Require Import gmap strings list option pretty.

Open Scope string_scope.

(** ** Values *)

(** The effect descriptor of a step is opaque JSON; the code only ever
    tests it for truthiness. *)
#[local] Unset Elimination Schemes.
Inductive jsval :=
| JUndefined
| JNull
| JBool (b : bool)
| JNum (n : Z)
| JStr (s : string)
| JArr (l : list jsval)
| JObj (l : list (string * jsval)).
#[local] Set Elimination Schemes.

Definition nonempty (s : string) : bool :=
  match s with EmptyString => false | String _ _ => true end.

(** [!!v] *)
Definition truthy (v : jsval) : bool :=
  match v with
  | JUndefined | JNull => false
  | JBool b => b
  | JNum n => negb (n =? 0)%Z
  | JStr s => nonempty s
  | JArr _ | JObj _ => true
  end.

(** [a || b] *)
Definition js_or (a b : jsval) : jsval := if truthy a then a else b.

(** Truthiness of a property that holds a string when it is present. *)
Definition present (o : option string) : bool :=
  match o with Some s => nonempty s | None => false end.

(** [o || d] for such a property. *)
Definition or_else (o : option string) (d : string) : string :=
  match o with Some s => if nonempty s then s else d | None => d end.

(** [x + s] where [s] is a string: an absent [x] prints as "undefined". *)
Definition js_text (o : option string) : string := default "undefined" o.

(** [arr.includes(x)] on an array of strings. *)
Definition includes (x : string) (arr : list string) : bool :=
  existsb (String.eqb x) arr.

(** ** Data model *)

Record SignatureRecord := mkSignatureRecord {
  sr_signature : string;
  sr_timestamp : string;
  sr_pubKey : string;
  sr_message : string;
  signed_at : string
}.

(** [step.signatures]: a key that is absent reads as [undefined] (lookup
    gives [None]), a key bound to [None] holds [null], a key bound to
    [Some r] holds a signature record. *)
Abbreviation SigMap := (gmap string (option SignatureRecord)).

(** A step as it is found in a contract document or in a request.  A
    property the document may lack is an [option]; [completed] absent
    and [completed: false] are both [false]. *)
Record Step := mkStep {
  step_id : option string;
  step_description : option string;
  magicSpell : jsval;
  magic_spell : jsval;
  order : option nat;
  signatures : option SigMap;
  completed : bool;
  completedAt : option string;
  step_createdAt : option string
}.

Record Contract := mkContract {
  uuid : string;
  title : option string;
  description : string;
  participants : list string;
  steps : list Step;
  productUuid : option string;
  bdoLocation : option string;
  createdAt : string;
  updatedAt : string;
  status : string;
  creator : string;
  pubKey : option string;
  bdoUuid : option string;
  svgContent : option string;
  scgBdoUuid : option string
}.

Record Keys := mkKeys { k_pubKey : string; k_privateKey : string }.

Record User := mkUser {
  u_uuid : string; u_pubKey : string; u_createdAt : string; u_updatedAt : string
}.

(** ** The world: files under [data/] and the in-memory caches *)

Record World := mkWorld {
  contractFiles : gmap string Contract;      (* data/contracts/<uuid>.json *)
  userFiles : gmap string User;              (* data/users/<uuid>.json *)
  keyFiles : gmap string Keys;               (* data/keys/<pubKey>.json *)
  mappingFile : option (gmap string string); (* data/keys/contract-pubkey-mapping.json *)
  keyCache : gmap string Keys;
  contractPubKeyMap : gmap string string
}.

Definition emptyWorld : World := mkWorld ∅ ∅ ∅ None ∅ ∅.

(** A call that returns or throws. *)
Inductive outcome (A : Type) :=
| Returns (a : A)
| Throws (msg : string).
Arguments Returns {A} a.
Arguments Throws {A} msg.

(** ** What the outside answers during one request *)

Record Env := mkEnv {
  t_step : nat -> string;      (* Date for [createdAt] of the i-th step *)
  t_created : string;          (* Date for [contract.createdAt] *)
  t_updated : string;          (* Date for [contract.updatedAt] *)
  t_signed : string;           (* Date for [signed_at] *)
  t_completed : string;        (* Date for [step.completedAt] *)
  newUUID : string;            (* sessionless.generateUUID() of the contract or user *)
  stepUUID : nat -> string;    (* sessionless.generateUUID() for the i-th step *)
  newKeys : Keys;              (* the pair sessionless.generateKeys draws *)
  createUser : outcome string;           (* bdo.createUser(hash, contract, ..) *)
  createUserScg : outcome string;        (* bdo.createUser(scgHash, scgBdoData, ..) *)
  updateBDO : outcome unit;              (* bdo.updateBDO(bdoUuid, hash, contract) *)
  getBDO : outcome (option Contract);    (* bdo.getBDO(..): its [bdo], when truthy *)
  deleteUser : outcome unit              (* bdo.deleteUser(bdoUuid, hash) *)
}.

(** ** Key registry *)

(** [saveKeys]: writes [data/keys/<pubKey>.json] and caches the pair. *)
Definition saveKeys (w : World) (keys : Keys) : World :=
  mkWorld (contractFiles w) (userFiles w)
          (<[k_pubKey keys := keys]> (keyFiles w)) (mappingFile w)
          (<[k_pubKey keys := keys]> (keyCache w)) (contractPubKeyMap w).

(** [getKeys]: cache first, then the key file (which fills the cache). *)
Definition getKeys (w : World) (pk : string) : outcome Keys * World :=
  if negb (nonempty pk) then (Throws "pubKey is required for key lookup", w)
  else match keyCache w !! pk with
       | Some cached => (Returns cached, w)
       | None =>
         match keyFiles w !! pk with
         | Some keys =>
           (Returns keys,
            mkWorld (contractFiles w) (userFiles w) (keyFiles w) (mappingFile w)
                    (<[pk := keys]> (keyCache w)) (contractPubKeyMap w))
         | None => (Throws ("Keys not found for pubKey: " ++ pk), w)
         end
       end.

(** [saveContractPubKeyMapping]: binds the contract to the key in the
    aggregate document (created when missing) and in the cache. *)
Definition saveContractPubKeyMapping (w : World) (contractUuid pk : string) : World :=
  let mappings := default ∅ (mappingFile w) in
  mkWorld (contractFiles w) (userFiles w) (keyFiles w)
          (Some (<[contractUuid := pk]> mappings))
          (keyCache w) (<[contractUuid := pk]> (contractPubKeyMap w)).

(** [getContractPubKey] *)
Definition getContractPubKey (w : World) (contractUuid : string)
  : outcome string * World :=
  match contractPubKeyMap w !! contractUuid with
  | Some pk => (Returns pk, w)
  | None =>
    match mappingFile w with
    | None => (Throws "Contract pubKey mapping file not found", w)
    | Some mappings =>
      match mappings !! contractUuid with
      | Some pk =>
        if nonempty pk
        then (Returns pk,
              mkWorld (contractFiles w) (userFiles w) (keyFiles w) (mappingFile w)
                      (keyCache w) (<[contractUuid := pk]> (contractPubKeyMap w)))
        else (Throws ("No pubKey mapping found for contract: " ++ contractUuid), w)
      | None => (Throws ("No pubKey mapping found for contract: " ++ contractUuid), w)
      end
    end
  end.

(** [loadContractPubKeyMappings]: at start-up the whole aggregate document
    is copied into the cache. *)
Definition loadContractPubKeyMappings (w : World) : World :=
  match mappingFile w with
  | None => w
  | Some mappings =>
    mkWorld (contractFiles w) (userFiles w) (keyFiles w) (mappingFile w)
            (keyCache w) (mappings ∪ contractPubKeyMap w)
  end.

(** ** Validation *)

(** The loop of [validateContract] over the steps, from index [i]. *)
Fixpoint validateSteps (i : nat) (l : list Step) : option string :=
  match l with
  | [] => None
  | step :: rest =>
    if negb (present (step_description step))
    then Some ("Step " ++ pretty (i + 1) ++ " must have a description")
    else validateSteps (S i) rest
  end.

(** [validateContract]: the first violation found, or [None].  The
    [typeof] and [Array.isArray] tests hold by typing here; what is left
    of them is truthiness. *)
Definition validateContract (contract : Contract) : option string :=
  if negb (present (title contract)) then Some "Contract must have a title"
  else if (List.length (participants contract) <? 2)%nat
  then Some "Contract must have at least 2 participants"
  else if (List.length (steps contract) =? 0)%nat
  then Some "Contract must have at least one step"
  else validateSteps 0 (steps contract).

(** ** Local contract store *)

(** The contracts directory is a map from ids to documents: the document
    under [id] is the file [<id>.json] of the directory.  The code joins
    the id it is given into the path, so this is what it reads and writes
    when the id is the name of a file: not empty (the router takes no
    empty id), no path separator and no NUL in it, and short enough for
    [<id>.json] to be a file name (255 bytes, on a POSIX file system).
    With another id the code leaves the directory or fails to read; those
    reads are not modelled, and a statement about the answer to an
    arbitrary id from outside is made for ids that satisfy [file_name]. *)
Definition file_name (id : string) : bool :=
  nonempty id
  && forallb (fun c => negb (Ascii.eqb c (Ascii.ascii_of_nat 47))
                    && negb (Ascii.eqb c (Ascii.ascii_of_nat 92))
                    && negb (Ascii.eqb c (Ascii.ascii_of_nat 0)))
          (String.list_ascii_of_string id)
  && (String.length id <=? 250)%nat.

Definition saveContract (w : World) (contract : Contract) : World :=
  mkWorld (<[uuid contract := contract]> (contractFiles w)) (userFiles w)
          (keyFiles w) (mappingFile w) (keyCache w) (contractPubKeyMap w).

Definition loadContract (w : World) (id : string) : option Contract :=
  contractFiles w !! id.

(** Field updates on a contract document, as the code assigns them. *)
Definition set_pubKey (c : Contract) (v : option string) : Contract :=
  mkContract (uuid c) (title c) (description c) (participants c) (steps c)
    (productUuid c) (bdoLocation c) (createdAt c) (updatedAt c) (status c)
    (creator c) v (bdoUuid c) (svgContent c) (scgBdoUuid c).

Definition set_bdoUuid (c : Contract) (v : option string) : Contract :=
  mkContract (uuid c) (title c) (description c) (participants c) (steps c)
    (productUuid c) (bdoLocation c) (createdAt c) (updatedAt c) (status c)
    (creator c) (pubKey c) v (svgContent c) (scgBdoUuid c).

Definition set_svgContent (c : Contract) (v : option string) : Contract :=
  mkContract (uuid c) (title c) (description c) (participants c) (steps c)
    (productUuid c) (bdoLocation c) (createdAt c) (updatedAt c) (status c)
    (creator c) (pubKey c) (bdoUuid c) v (scgBdoUuid c).

Definition set_scgBdoUuid (c : Contract) (v : option string) : Contract :=
  mkContract (uuid c) (title c) (description c) (participants c) (steps c)
    (productUuid c) (bdoLocation c) (createdAt c) (updatedAt c) (status c)
    (creator c) (pubKey c) (bdoUuid c) (svgContent c) v.

Definition set_steps (c : Contract) (v : list Step) : Contract :=
  mkContract (uuid c) (title c) (description c) (participants c) v
    (productUuid c) (bdoLocation c) (createdAt c) (updatedAt c) (status c)
    (creator c) (pubKey c) (bdoUuid c) (svgContent c) (scgBdoUuid c).

Definition set_updatedAt (c : Contract) (v : string) : Contract :=
  mkContract (uuid c) (title c) (description c) (participants c) (steps c)
    (productUuid c) (bdoLocation c) (createdAt c) v (status c)
    (creator c) (pubKey c) (bdoUuid c) (svgContent c) (scgBdoUuid c).

(** ** Requests and responses *)

(** [req.body] of the contract endpoints: the properties some handler
    reads, each absent or present, and [b_other] for every further
    property a client may send. *)
Record Body := mkBody {
  b_signature : option string;
  b_timestamp : option string;
  b_userUUID : option string;
  b_pubKey : option string;
  b_title : option string;
  b_description : option string;
  b_participants : option (list string);
  b_steps : option (list Step);
  b_status : option string;
  b_product_uuid : option string;
  b_bdo_location : option string;
  b_stepId : option string;
  b_stepSignature : option string;
  b_other : gmap string jsval
}.

Inductive Payload :=
| PError (error : string)
| PContract (data : Contract)
| PSigned (contractUuid stepId : string) (stepCompleted magicTriggered : bool)
| PUser (user : User)
| PDeleted (id : string).

Record Response := mkResponse {
  res_status : nat;
  res_success : bool;
  res_payload : Payload
}.

Definition failure (code : nat) (msg : string) : Response :=
  mkResponse code false (PError msg).

Definition ok (p : Payload) : Response := mkResponse 200 true p.

(** What [verifySessionlessAuth] returns when it lets the request through. *)
Record Auth := mkAuth {
  a_message : string;
  a_signature : string;
  a_pubKey : string;
  a_userUUID : string;
  a_timestamp : string
}.

(** [a || null] for a string property. *)
Definition or_null (o : option string) : option string :=
  if present o then o else None.

(** The first element that satisfies [p] is replaced by its image under
    [f]: what [arr.find(p)] followed by assignments to the object found
    does to the array. *)
Fixpoint update_first {A} (p : A -> bool) (f : A -> A) (l : list A) : list A :=
  match l with
  | [] => []
  | x :: rest => if p x then f x :: rest else x :: update_first p f rest
  end.

(** [s => s.id === stepId] *)
Definition has_id (stepId : string) (s : Step) : bool :=
  match step_id s with Some i => String.eqb i stepId | None => false end.

(** [signatures[participant] !== null] *)
Definition not_null (m : SigMap) (participant : string) : bool :=
  match m !! participant with
  | Some None => false
  | Some (Some _) | None => true
  end.

(** ** The service *)

Section Service.

(** [sessionless.verifySignature(signature, message, pubKey)] *)
Variable verifySignature : string -> string -> string -> bool.

(** The text [generateContractSVG] assembles for a contract it can
    walk (dark theme, 800 by 600). *)
Variable render : Contract -> string.

(** [generateContractSVG] reads [step.signatures[participant]] and
    [Object.values(step.signatures)] of every step, so it throws as soon
    as one step has no signature object; otherwise it returns the text. *)
Definition generateContractSVG (contract : Contract) : outcome string :=
  if forallb (fun s => bool_decide (is_Some (signatures s))) (steps contract)
  then Returns (render contract)
  else Throws "Cannot read properties of undefined".

(** *** Replicated store *)

(** [saveContractToBDO].  A new pair is drawn and bound on every call.
    When [bdo.createUser] throws, the handler of that [try] starts by
    reading [originalGetKeys], a [const] of the [try] block that is out
    of scope there: the handler itself throws, and control reaches the
    outermost [catch], which saves locally what the contract holds at
    that point. *)
Definition saveContractToBDO (env : Env) (w : World) (contract : Contract)
  : Contract * World :=
  let contractKeys := newKeys env in
  let w1 := saveKeys w contractKeys in
  let w2 := saveContractPubKeyMapping w1 (uuid contract) (k_pubKey contractKeys) in
  let c1 := set_pubKey contract (Some (k_pubKey contractKeys)) in
  match createUser env with
  | Throws _ => (c1, saveContract w2 c1)
  | Returns newBdoUuid =>
    let c2 := set_bdoUuid c1 (Some newBdoUuid) in
    let c3 := match generateContractSVG c2 with
              | Returns svg => set_svgContent c2 (Some svg)
              | Throws _ => c2
              end in
    let c4 := match createUserScg env with
              | Returns scgBdoUuid => set_scgBdoUuid c3 (Some scgBdoUuid)
              | Throws _ => c3
              end in
    (* bdo.updateBDO(bdoUuid, hash, contract): its failure is logged *)
    (c4, saveContract w2 c4)
  end.

(** [loadContractFromBDO] *)
Definition loadContractFromBDO (env : Env) (w : World) (id : string)
  : option Contract * World :=
  match loadContract w id with
  | None => (None, w)
  | Some localContract =>
    if negb (present (bdoUuid localContract)) then (Some localContract, w)
    else
      match getContractPubKey w id with
      | (Throws _, w1) => (Some localContract, w1)
      | (Returns contractPubKey, w1) =>
        match getKeys w1 contractPubKey with
        | (Throws _, w2) => (Some localContract, w2)
        | (Returns _, w2) =>
          match getBDO env with
          | Returns (Some remote) => (Some remote, w2)
          | Returns None => (Some localContract, w2)
          | Throws _ => (Some localContract, w2)
          end
        end
      end
  end.

(** *** Authentication gate *)

(** The text an endpoint signature covers: [timestamp + userUUID], and
    the contract id after it when there is one. *)
Definition authMessage (ts userUuid : string) (contractUUID : option string)
  : string :=
  if present contractUUID
  then ts ++ userUuid ++ js_text contractUUID
  else ts ++ userUuid.

(** [verifySessionlessAuth]: the left side is the response it has
    already sent. *)
Definition verifySessionlessAuth (b : Body) (contractUUID : option string)
  : Response + Auth :=
  match b_signature b, b_timestamp b, b_userUUID b, b_pubKey b with
  | Some sig, Some ts, Some userUuid, Some pk =>
    if nonempty sig && nonempty ts && nonempty userUuid && nonempty pk then
      let message := authMessage ts userUuid contractUUID in
      if verifySignature sig message pk
      then inr (mkAuth message sig pk userUuid ts)
      else inl (failure 401 "Invalid signature")
    else inl (failure 401
      "Missing authentication fields: signature, timestamp, userUUID, and pubKey required")
  | _, _, _, _ => inl (failure 401
      "Missing authentication fields: signature, timestamp, userUUID, and pubKey required")
  end.

(** *** Users *)

Record UserCreateBody := mkUserCreateBody {
  uc_pubKey : string;
  uc_timestamp : option string;
  uc_signature : option string
}.

(** [PUT /user/create] *)
Definition put_user_create (env : Env) (w : World) (b : UserCreateBody)
  : Response * World :=
  let message := js_text (uc_timestamp b) ++ uc_pubKey b in
  if negb (present (uc_signature b))
     || negb (verifySignature (js_text (uc_signature b)) message (uc_pubKey b))
  then (failure 403 "Authentication failed", w)
  else
    let user := mkUser (newUUID env) (uc_pubKey b) (t_created env) (t_updated env) in
    (mkResponse 200 true (PUser user),
     mkWorld (contractFiles w) (<[newUUID env := user]> (userFiles w))
             (keyFiles w) (mappingFile w) (keyCache w) (contractPubKeyMap w)).

(** [GET /user/:uuid?timestamp&signature] *)
Definition get_user (w : World) (id : string) (timestamp signature : option string)
  : Response * World :=
  match userFiles w !! id with
  | None => (failure 404 "User not found", w)
  | Some user =>
    let message := js_text timestamp ++ id in
    if negb (present signature)
       || negb (verifySignature (js_text signature) message (u_pubKey user))
    then (failure 403 "Authentication failed", w)
    else (mkResponse 200 true (PUser user), w)
  end.

(** *** Contracts *)

(** The step object [POST /contract] builds from the [index]-th raw
    step, before the signature object is filled. *)
Definition newStep (env : Env) (index : nat) (step : Step) : Step :=
  mkStep (Some (or_else (step_id step) (stepUUID env index)))
         (step_description step)
         (js_or (magicSpell step) (js_or (magic_spell step) JNull))
         JUndefined
         (Some index)
         (Some ∅)
         false
         None
         (Some (t_step env index)).

(** [signatures[p] = null] on an object that has the own properties [m];
    [inherits] says that its prototype is still [Object.prototype].  As
    long as it is, and the object has no own property of that name, the
    name [__proto__] is the accessor it inherits: assigning [null] to it
    adds no property and takes the prototype away, after which the name
    is assigned like any other. *)
Definition assign_null (acc : SigMap * bool) (p : string) : SigMap * bool :=
  let '(m, inherits) := acc in
  if String.eqb p "__proto__" && inherits
     && match m !! p with Some _ => false | None => true end
  then (m, false)
  else (<[p := None]> m, inherits).

(** How often the name [__proto__] is listed. *)
Definition proto_count (ps : list string) : nat :=
  List.length (List.filter (String.eqb "__proto__") ps).

(** [contract.participants.forEach(p => step.signatures[p] = null)], on
    the signature object [{}] that the step was built with. *)
Definition initSignatures (ps : list string) (step : Step) : Step :=
  match signatures step with
  | Some m =>
    mkStep (step_id step) (step_description step) (magicSpell step)
           (magic_spell step) (order step)
           (Some (fst (foldl assign_null (m, true) ps)))
           (completed step) (completedAt step) (step_createdAt step)
  | None => step
  end.

(** The contract object [POST /contract] builds from the body. *)
Definition newContract (env : Env) (b : Body) (auth : Auth) : Contract :=
  mkContract (newUUID env)
             (b_title b)
             (or_else (b_description b) "")
             (default [] (b_participants b))
             (imap (newStep env) (default [] (b_steps b)))
             (or_null (b_product_uuid b))
             (or_null (b_bdo_location b))
             (t_created env)
             (t_updated env)
             "active"
             (a_pubKey auth)
             None None None None.

(** [POST /contract] *)
Definition post_contract (env : Env) (w : World) (b : Body) : Response * World :=
  match verifySessionlessAuth b None with
  | inl sent => (sent, w)
  | inr auth =>
    let contract := newContract env b auth in
    match validateContract contract with
    | Some validationError => (failure 400 validationError, w)
    | None =>
      let contract :=
        set_steps contract
          (initSignatures (participants contract) <$> steps contract) in
      let '(saved, w') := saveContractToBDO env w contract in
      (ok (PContract saved), w')
    end
  end.

(** [GET /contract/:uuid] *)
Definition get_contract (env : Env) (w : World) (id : string) : Response * World :=
  match loadContractFromBDO env w id with
  | (None, w') => (failure 404 "Contract not found", w')
  | (Some contract, w') => (ok (PContract contract), w')
  end.

(** The overlay of the allowed fields, [title], [description], [steps]
    and [status], each only when the body defines it. *)
Definition overlay (contract : Contract) (updates : Body) : Contract :=
  mkContract (uuid contract)
             (match b_title updates with Some t => Some t | None => title contract end)
             (default (description contract) (b_description updates))
             (participants contract)
             (default (steps contract) (b_steps updates))
             (productUuid contract) (bdoLocation contract)
             (createdAt contract) (updatedAt contract)
             (default (status contract) (b_status updates))
             (creator contract) (pubKey contract) (bdoUuid contract)
             (svgContent contract) (scgBdoUuid contract).

(** [PUT /contract/:uuid] *)
Definition put_contract (env : Env) (w : World) (id : string) (b : Body)
  : Response * World :=
  match verifySessionlessAuth b (Some id) with
  | inl sent => (sent, w)
  | inr auth =>
    match loadContractFromBDO env w id with
    | (None, w1) => (failure 404 "Contract not found", w1)
    | (Some contract, w1) =>
      let isAuthorized :=
        String.eqb (creator contract) (a_pubKey auth)
        || includes (a_pubKey auth) (participants contract) in
      if negb isAuthorized
      then (failure 403 "Not authorized to update this contract", w1)
      else
        let contract := set_updatedAt (overlay contract b) (t_updated env) in
        match validateContract contract with
        | Some validationError => (failure 400 validationError, w1)
        | None =>
          let '(saved, w2) := saveContractToBDO env w1 contract in
          (ok (PContract saved), w2)
        end
    end
  end.

(** The assignments [PUT /contract/:uuid/sign] makes to the step it
    found: the record goes under the caller's key, then completion is
    recomputed over the participants. *)
Definition signStep (env : Env) (ps : list string) (pk : string)
    (record : SignatureRecord) (m : SigMap) (step : Step) : Step :=
  let m' := <[pk := Some record]> m in
  let allSigned := forallb (not_null m') ps in
  if allSigned && negb (completed step)
  then mkStep (step_id step) (step_description step) (magicSpell step)
              (magic_spell step) (order step) (Some m')
              true (Some (t_completed env)) (step_createdAt step)
  else mkStep (step_id step) (step_description step) (magicSpell step)
              (magic_spell step) (order step) (Some m')
              (completed step) (completedAt step) (step_createdAt step).

(** The text a step signature covers. *)
Definition stepMessage (auth : Auth) (id stepId : string) : string :=
  a_timestamp auth ++ a_userUUID auth ++ id ++ stepId.

(** The signature record stored for the caller. *)
Definition newRecord (env : Env) (auth : Auth) (id stepId stepSignature : string)
  : SignatureRecord :=
  mkSignatureRecord stepSignature (a_timestamp auth) (a_pubKey auth)
                    (stepMessage auth id stepId) (t_signed env).

(** The contract as [PUT /contract/:uuid/sign] hands it to the store:
    the found step replaced by [step'], the modification time set. *)
Definition withStep (env : Env) (contract : Contract) (stepId : string)
    (step' : Step) : Contract :=
  set_updatedAt
    (set_steps contract
       (update_first (has_id stepId) (fun _ => step') (steps contract)))
    (t_updated env).

(** [PUT /contract/:uuid/sign] *)
Definition put_contract_sign (env : Env) (w : World) (id : string) (b : Body)
  : Response * World :=
  match verifySessionlessAuth b (Some id) with
  | inl sent => (sent, w)
  | inr auth =>
    match loadContractFromBDO env w id with
    | (None, w1) => (failure 404 "Contract not found", w1)
    | (Some contract, w1) =>
      if negb (includes (a_pubKey auth) (participants contract))
      then (failure 403 "User not authorized for this contract", w1)
      else
        match b_stepId b, b_stepSignature b with
        | Some stepId, Some stepSignature =>
          if nonempty stepId && nonempty stepSignature then
            match find (has_id stepId) (steps contract) with
            | None => (failure 404 "Step not found", w1)
            | Some step =>
              if negb (verifySignature stepSignature (stepMessage auth id stepId)
                                       (a_pubKey auth))
              then (failure 401 "Invalid step signature", w1)
              else
                match signatures step with
                | None =>
                  (* TypeError on [step.signatures[..] = ..], caught below *)
                  (failure 500 "Failed to add signature", w1)
                | Some m =>
                  let record := newRecord env auth id stepId stepSignature in
                  let step' :=
                    signStep env (participants contract) (a_pubKey auth)
                             record m step in
                  let '(_, w2) :=
                    saveContractToBDO env w1 (withStep env contract stepId step') in
                  (ok (PSigned id stepId (completed step')
                               (completed step' && truthy (magicSpell step'))),
                   w2)
                end
            end
          else (failure 400 "stepId and stepSignature are required", w1)
        | _, _ => (failure 400 "stepId and stepSignature are required", w1)
        end
    end
  end.

(** [DELETE /contract/:uuid] *)
Definition delete_contract (env : Env) (w : World) (id : string) (b : Body)
  : Response * World :=
  match verifySessionlessAuth b (Some id) with
  | inl sent => (sent, w)
  | inr auth =>
    match loadContractFromBDO env w id with
    | (None, w1) => (failure 404 "Contract not found", w1)
    | (Some contract, w1) =>
      if negb (String.eqb (creator contract) (a_pubKey auth))
      then (failure 403 "Only the contract creator can delete this contract", w1)
      else
        (* bdo.deleteUser(contract.bdoUuid, hash) when there is a
           record id: its failure is logged *)
        (ok (PDeleted id),
         mkWorld (delete id (contractFiles w1)) (userFiles w1) (keyFiles w1)
                 (mappingFile w1) (keyCache w1) (contractPubKeyMap w1))
    end
  end.

End Service.

(** ** Where a request stands in a handler *)

Section Guards.

Variable verifySignature : string -> string -> string -> bool.

(** A sign request that gets as far as the check of the step signature:
    the gate lets it through as [auth], the read returns [contract] and
    leaves the world [w1], the caller is a participant, [stepId] and
    [stepSignature] are given, and [step] is the step found. *)
Definition reaches_step (env : Env) (w : World) (id : string) (b : Body)
    (auth : Auth) (contract : Contract) (w1 : World)
    (stepId stepSignature : string) (step : Step) : Prop :=
  verifySessionlessAuth verifySignature b (Some id) = inr auth /\
  loadContractFromBDO env w id = (Some contract, w1) /\
  includes (a_pubKey auth) (participants contract) = true /\
  b_stepId b = Some stepId /\
  b_stepSignature b = Some stepSignature /\
  nonempty stepId = true /\
  nonempty stepSignature = true /\
  find (has_id stepId) (steps contract) = Some step.

(** An update request that gets as far as validation. *)
Definition reaches_validation (env : Env) (w : World) (id : string) (b : Body)
    (auth : Auth) (contract : Contract) (w1 : World) : Prop :=
  verifySessionlessAuth verifySignature b (Some id) = inr auth /\
  loadContractFromBDO env w id = (Some contract, w1) /\
  (String.eqb (creator contract) (a_pubKey auth)
   || includes (a_pubKey auth) (participants contract)) = true.

(** The caller's step signature verifies. *)
Definition step_signature_ok (auth : Auth) (id stepId stepSignature : string)
  : bool :=
  verifySignature stepSignature (stepMessage auth id stepId) (a_pubKey auth).

(** The endpoint signature of a body is there and verifies for the
    target. *)
Definition signature_verifies (b : Body) (target : option string) : bool :=
  match b_signature b, b_timestamp b, b_userUUID b, b_pubKey b with
  | Some sig, Some ts, Some userUuid, Some pk =>
    verifySignature sig (authMessage ts userUuid target) pk
  | _, _, _, _ => false
  end.

(** The step signature of a body is there and verifies, over the text
    the handler would build for it, under the key the body names. *)
Definition step_signature_verifies (id : string) (b : Body) : bool :=
  match b_timestamp b, b_userUUID b, b_pubKey b, b_stepId b, b_stepSignature b with
  | Some ts, Some userUuid, Some pk, Some stepId, Some stepSignature =>
    verifySignature stepSignature (ts ++ userUuid ++ id ++ stepId) pk
  | _, _, _, _, _ => false
  end.

(** A create request that gets as far as the store. *)
Definition reaches_store (env : Env) (b : Body) (auth : Auth) : Prop :=
  verifySessionlessAuth verifySignature b None = inr auth /\
  validateContract (newContract env b auth) = None.

End Guards.

(** The document stored for [cid] in [w] holds, as its first step with id
    [stepId], a step that satisfies [P]. *)
Definition stored_step (w : World) (cid stepId : string) (P : Step -> Prop) : Prop :=
  exists saved step',
    contractFiles w !! cid = Some saved /\
    find (has_id stepId) (steps saved) = Some step' /\
    P step'.

(** What of a body [PUT /contract/:uuid] reads: the four authentication
    properties and the four allowed fields. *)
Definition update_view (b : Body) : Body :=
  mkBody (b_signature b) (b_timestamp b) (b_userUUID b) (b_pubKey b)
         (b_title b) (b_description b) None (b_steps b) (b_status b)
         None None None None ∅.

(** ** A run of the service

    Stand-ins for the externals, so that the handlers can be executed on
    concrete requests: a signature is the signed text tagged with the
    signer's key, and the rendering shows the title. *)
Module Run.

Definition verify (signature message pk : string) : bool :=
  String.eqb signature ("sig<" ++ pk ++ ">" ++ message).

Definition render (c : Contract) : string :=
  "<svg>" ++ default "" (title c) ++ "</svg>".

Definition Pa := "02aa".
Definition Pb := "03bb".
Definition Pc := "02cc".

Definition no_body : Body :=
  mkBody None None None None None None None None None None None None None ∅.

(** The four authentication properties of a request by [pk], signed
    over [ts ++ userUuid ++ target]. *)
Definition authed (pk userUuid ts target : string) (b : Body) : Body :=
  mkBody (Some ("sig<" ++ pk ++ ">" ++ ts ++ userUuid ++ target))
         (Some ts) (Some userUuid) (Some pk)
         (b_title b) (b_description b) (b_participants b) (b_steps b)
         (b_status b) (b_product_uuid b) (b_bdo_location b)
         (b_stepId b) (b_stepSignature b) (b_other b).

Definition raw_step (d : string) (spell : jsval) : Step :=
  mkStep None (Some d) spell JUndefined None None false None None.

(** An environment in which the remote store is unreachable. *)
Definition env_down (ts : string) (keys : Keys) : Env :=
  mkEnv (fun _ => ts) ts ts ts ts "c1" (fun _ => "s1") keys
        (Throws "ECONNREFUSED") (Throws "ECONNREFUSED") (Throws "ECONNREFUSED")
        (Throws "ECONNREFUSED") (Throws "ECONNREFUSED").

(** An environment in which the remote store answers; it hands out
    [rid] as record id and returns no document on fetch. *)
Definition env_up (ts : string) (keys : Keys) (rid : string) : Env :=
  mkEnv (fun _ => ts) ts ts ts ts "c1" (fun _ => "s1") keys
        (Returns rid) (Returns ("scg-" ++ rid)) (Returns ())
        (Returns None) (Returns ()).

Definition K1 := mkKeys "04k1" "d1".
Definition K2 := mkKeys "04k2" "d2".
Definition K3 := mkKeys "04k3" "d3".
Definition K4 := mkKeys "04k4" "d4".

(** [POST /contract] by [Pa]: two participants, one step. *)
Definition create_body (spell : jsval) : Body :=
  authed Pa "uA" "100" ""
    (mkBody None None None None (Some "Deal") None (Some [Pa; Pb])
            (Some [raw_step "Ship it" spell]) None None None None None ∅).

(** [PUT /contract/c1/sign] by [pk] on step [s1]. *)
Definition sign_body (pk userUuid ts : string) : Body :=
  authed pk userUuid ts "c1"
    (mkBody None None None None None None None None None None None
            (Some "s1") (Some ("sig<" ++ pk ++ ">" ++ ts ++ userUuid ++ "c1" ++ "s1")) ∅).

Definition created := post_contract verify render (env_down "100" K1) emptyWorld (create_body JNull).
Definition signed_a := put_contract_sign verify render (env_down "200" K2) (snd created) "c1" (sign_body Pa "uA" "200").
Definition signed_b := put_contract_sign verify render (env_down "300" K3) (snd signed_a) "c1" (sign_body Pb "uB" "300").
Definition signed_again := put_contract_sign verify render (env_down "400" K4) (snd signed_b) "c1" (sign_body Pa "uA" "400").

(** The same request with the step signature made with the key of [Pb]. *)
Definition forged_body : Body :=
  authed Pa "uA" "200" "c1"
    (mkBody None None None None None None None None None None None
            (Some "s1") (Some ("sig<" ++ Pb ++ ">" ++ "200" ++ "uA" ++ "c1" ++ "s1")) ∅).

Definition forged := put_contract_sign verify render (env_down "200" K2) (snd created) "c1" forged_body.

(** [Pc] is no participant; both of its signatures verify. *)
Definition outsider := put_contract_sign verify render (env_down "200" K2) (snd created) "c1" (sign_body Pc "uC" "200").

(** [PUT /contract/c1] by [Pa] that replaces the steps. *)
Definition replaced_step (m : SigMap) (flag : bool) : Step :=
  mkStep (Some "s1") (Some "Ship it") JNull JUndefined (Some 0) (Some m) flag None None.

Definition replace_body (l : list Step) : Body :=
  authed Pa "uA" "150" "c1"
    (mkBody None None None None None None None (Some l) None None None None None ∅).

Definition unsigned : SigMap := <[Pb := None]> (<[Pa := None]> ∅).

(** The step comes back marked completed with both entries [null]; then
    [Pa] signs. *)
Definition updated_done := put_contract verify render (env_down "150" K2) (snd created) "c1" (replace_body [replaced_step unsigned true]).
Definition signed_done := put_contract_sign verify render (env_down "200" K3) (snd updated_done) "c1" (sign_body Pa "uA" "200").

(** The step comes back with an empty signature object; then [Pa] signs. *)
Definition updated_bare := put_contract verify render (env_down "150" K2) (snd created) "c1" (replace_body [replaced_step ∅ false]).
Definition signed_bare := put_contract_sign verify render (env_down "200" K3) (snd updated_bare) "c1" (sign_body Pa "uA" "200").

(** [PUT /contract/c1] by [Pa] that changes the title and also sends a
    [creator] and a [uuid]. *)
Definition retitle_body : Body :=
  authed Pa "uA" "150" "c1"
    (mkBody None None None None (Some "New deal") None (Some [Pa; Pc]) None None
            None None None None (<["creator" := JStr Pc]> (<["uuid" := JStr "c2"]> ∅))).

(** Create and retitle with the remote store answering. *)
Definition created_up := post_contract verify render (env_up "100" K1 "bdo-1") emptyWorld (create_body JNull).
Definition retitled_up := put_contract verify render (env_up "150" K2 "bdo-2") (snd created_up) "c1" retitle_body.
Definition signed_up := put_contract_sign verify render (env_up "200" K3 "bdo-3") (snd retitled_up) "c1" (sign_body Pa "uA" "200").

(** [POST /contract] by [Pa] with the participants [ps]. *)
Definition create_with (ps : list string) : Body :=
  authed Pa "uA" "100" ""
    (mkBody None None None None (Some "Deal") None (Some ps)
            (Some [raw_step "Ship it" JNull]) None None None None None ∅).

Definition created_twice_a := post_contract verify render (env_down "100" K1) emptyWorld (create_with [Pa; Pa]).
Definition created_blank := post_contract verify render (env_down "100" K1) emptyWorld (create_with [""; Pa]).

(** A body whose endpoint signature is not one. *)
Definition unsigned_request (b : Body) : Body :=
  mkBody (Some "forged") (b_timestamp b) (b_userUUID b) (b_pubKey b)
         (b_title b) (b_description b) (b_participants b) (b_steps b)
         (b_status b) (b_product_uuid b) (b_bdo_location b)
         (b_stepId b) (b_stepSignature b) (b_other b).

(** Users. *)
Definition env_user : Env :=
  mkEnv (fun _ => "50") "50" "50" "50" "50" "u1" (fun _ => "s1") K1
        (Throws "ECONNREFUSED") (Throws "ECONNREFUSED") (Throws "ECONNREFUSED")
        (Throws "ECONNREFUSED") (Throws "ECONNREFUSED").

Definition user_body : UserCreateBody :=
  mkUserCreateBody Pa (Some "50") (Some ("sig<" ++ Pa ++ ">" ++ "50" ++ Pa)).

Definition forged_user_body : UserCreateBody :=
  mkUserCreateBody Pa (Some "50") (Some "forged").

Definition user_created := put_user_create verify env_user emptyWorld user_body.

(** Effect triggering: the step carries a payment descriptor. *)
Definition payment : jsval := JObj [("type", JStr "payment"); ("amount", JNum 100)].
Definition created_spell := post_contract verify render (env_down "100" K1) emptyWorld (create_body payment).
Definition spell_a := put_contract_sign verify render (env_down "200" K2) (snd created_spell) "c1" (sign_body Pa "uA" "200").
Definition spell_b := put_contract_sign verify render (env_down "300" K3) (snd spell_a) "c1" (sign_body Pb "uB" "300").

(** One participant only. *)
Definition created_alone := post_contract verify render (env_down "100" K1) emptyWorld (create_with [Pa]).

(** A world with a user and a contract, for the requests that fail
    authentication. *)
Definition with_user := post_contract verify render (env_down "100" K1) (snd user_created) (create_body JNull).

(** What the gate returns for a request of [authed]. *)
Definition auth_of (pk userUuid ts target : string) : Auth :=
  mkAuth (ts ++ userUuid ++ target)
         ("sig<" ++ pk ++ ">" ++ ts ++ userUuid ++ target) pk userUuid ts.

(** The document a step of the run left for [c1], its first step, and
    the signature object of a step. *)
Definition blank : Contract :=
  mkContract "" None "" [] [] None None "" "" "" "" None None None None.

Definition doc (r : Response * World) : Contract :=
  default blank (contractFiles (snd r) !! "c1").

Definition step1 (c : Contract) : Step :=
  default (raw_step "" JNull) (head (steps c)).

Definition sigs (s : Step) : SigMap := default ∅ (signatures s).

Definition step_sig (pk userUuid ts : string) : string :=
  "sig<" ++ pk ++ ">" ++ ts ++ userUuid ++ "c1" ++ "s1".

(** The timestamp of the record a signature object holds for [pk]. *)
Definition signed_time (m : SigMap) (pk : string) : option string :=
  match m !! pk with
  | Some (Some r) => Some (sr_timestamp r)
  | Some None | None => None
  end.

End Run.


(** ** The routes, start-up and listing *)

(** A request to one of the routes that read or write the stores. *)
Inductive Request :=
| PostContract (b : Body)
| GetContract (id : string)
| PutContract (id : string) (b : Body)
| PutContractSign (id : string) (b : Body)
| DeleteContract (id : string) (b : Body)
| PutUserCreate (b : UserCreateBody)
| GetUser (id : string) (timestamp signature : option string).

(** The router. *)
Definition serve (verifySignature : string -> string -> string -> bool)
    (render : Contract -> string) (env : Env) (w : World) (r : Request)
  : Response * World :=
  match r with
  | PostContract b => post_contract verifySignature render env w b
  | GetContract id => get_contract env w id
  | PutContract id b => put_contract verifySignature render env w id b
  | PutContractSign id b => put_contract_sign verifySignature render env w id b
  | DeleteContract id b => delete_contract verifySignature env w id b
  | PutUserCreate b => put_user_create verifySignature env w b
  | GetUser id timestamp signature => get_user verifySignature w id timestamp signature
  end.

(** The world after a sequence of requests, each with the answers the
    outside gives while it is served. *)
Fixpoint run (verifySignature : string -> string -> string -> bool)
    (render : Contract -> string) (w : World) (trace : list (Env * Request))
  : World :=
  match trace with
  | [] => w
  | (env, r) :: rest =>
    run verifySignature render (snd (serve verifySignature render env w r)) rest
  end.

(** [startServer]: a new process has empty caches and copies the mapping
    file into its cache before it listens; the files are as they were
    left. *)
Definition startServer (w : World) : World :=
  loadContractPubKeyMappings
    (mkWorld (contractFiles w) (userFiles w) (keyFiles w) (mappingFile w) ∅ ∅).

(** What [listContracts] shows of a contract.  [createdAt] and
    [updatedAt] are read from [contract.created_at] and
    [contract.updated_at], properties no document here has. *)
Record Summary := mkSummary {
  ls_uuid : string;
  ls_title : option string;
  ls_participants : list string;
  ls_createdAt : option string;
  ls_updatedAt : option string;
  stepCount : nat;
  completedSteps : nat;
  ls_bdoUuid : option string;
  ls_pubKey : option string
}.

Definition summarize (contract : Contract) : Summary :=
  mkSummary (uuid contract) (title contract) (participants contract) None None
            (List.length (steps contract))
            (List.length (List.filter completed (steps contract)))
            (bdoUuid contract) (pubKey contract).

(** [listContracts], given the ids of the [.json] entries of the
    contracts directory in the order [readdir] returns them.  An entry
    whose document cannot be loaded is skipped.  The final sort compares
    [new Date(b.updatedAt) - new Date(a.updatedAt)]; both dates are built
    from [undefined], the difference is NaN for every pair, which the sort
    takes as equal, and the sort is stable: the order stays that of the
    directory. *)
Definition listContracts (entries : list string) (w : World) : list Summary :=
  omap (fun id => summarize <$> loadContract w id) entries.

(** [GET /contracts?participant=..] *)
Definition get_contracts (entries : list string) (w : World)
    (participant : option string) : list Summary :=
  let contracts := listContracts entries w in
  if present participant
  then List.filter (fun c => includes (js_text participant) (ls_participants c))
                   contracts
  else contracts.

(** ** Invariants of the stores *)

(** The files a world holds, the caches left aside. *)
Definition files (w : World)
  : gmap string Contract * gmap string User * gmap string Keys
    * option (gmap string string) :=
  (contractFiles w, userFiles w, keyFiles w, mappingFile w).




(** Every contract document passes validation. *)
Definition all_valid (w : World) : Prop :=
  forall id c, contractFiles w !! id = Some c -> validateContract c = None.

(** The remote store hands out no document that fails validation. *)
Definition remote_valid (env : Env) : Prop :=
  forall c, getBDO env = Returns (Some c) -> validateContract c = None.

(** Every step of a contract has a signature object whose keys are the
    participants. *)
Definition signatures_complete (c : Contract) : Prop :=
  Forall (fun s => exists m : SigMap,
            signatures s = Some m /\ dom m = list_to_set (participants c))
         (steps c).

(** ** From a URL to a route *)

(** The spells and the client build the URL of a contract by writing its
    id into the path as it is.  What the URL parser and the router make
    of a path lies outside the service's code; it is modelled for ids
    made of letters, digits, [-] and [_] (the ids the service draws are
    of this kind): a path segment of these characters is carried
    unchanged and is what the route gets as [req.params.uuid]. *)
Definition unreserved (c : Ascii.ascii) : bool :=
  let n := Ascii.nat_of_ascii c in
  ((48 <=? n) && (n <=? 57) || (65 <=? n) && (n <=? 90)
   || (97 <=? n) && (n <=? 122) || (n =? 45) || (n =? 95))%nat.

Definition url_safe (s : string) : bool :=
  nonempty s && forallb unreserved (String.list_ascii_of_string s).

(** [s] without its prefix [p]. *)
Fixpoint strip_prefix (p s : string) : option string :=
  match p, s with
  | EmptyString, _ => Some s
  | String a p', String b s' => if Ascii.eqb a b then strip_prefix p' s' else None
  | String _ _, EmptyString => None
  end.

(** The longest prefix of [s] made of these characters, and the rest. *)
Fixpoint segment (s : string) : string * string :=
  match s with
  | EmptyString => (EmptyString, EmptyString)
  | String c s' =>
    if unreserved c
    then let '(seg, rest) := segment s' in (String c seg, rest)
    else (EmptyString, s)
  end.

(** [app.put('/contract/:uuid', ..)] and
    [app.put('/contract/:uuid/sign', ..)]: the route that a [PUT] to
    [path], the URL after its origin, reaches with the body [b].  A path
    whose id is not made of the characters above, or that is of another
    form, is left out: [None] says that the model does not follow the
    request, not that the service refuses it. *)
Definition route_put (path : string) (b : Body) : option Request :=
  match strip_prefix "/contract/" path with
  | None => None
  | Some rest =>
    let '(id, tail) := segment rest in
    if negb (nonempty id) then None
    else if String.eqb tail "" then Some (PutContract id b)
    else if String.eqb tail "/sign" then Some (PutContractSign id b)
    else None
  end.

(** ** Spells: the resolver's way in *)

(** The components the two spells below read, each absent or present. *)
Record Components := mkComponents {
  co_uuid : option string;
  co_stepId : option string;
  co_stepSignature : option string;
  co_userUUID : option string;
  co_pubKey : option string;
  co_teacherPubKey : option string;
  co_studentPubKey : option string;
  co_lessonBdoPubKey : option string;
  co_lessonTitle : option string;
  co_studentUUID : option string;
  co_contractSignature : option string
}.

Record Spell := mkSpell {
  sp_timestamp : option string;
  sp_casterSignature : option string;
  components : Components
}.

(** What a spell returns: [{success: false, error}] for missing
    components, [{success: false, error: prefix + text of the answer}]
    when the endpoint refuses, and [{success: true, contractUuid,
    bdoPubKey, data}] otherwise ([purchaseLesson] names the last property
    [contract]). *)
Inductive SpellResult :=
| SpellFailed (error : string)
| SpellRefused (prefix : string) (answer : Response)
| SpellDone (contractUuid bdoPubKey : option string) (data : Payload).

(** [response.ok] *)
Definition response_ok (r : Response) : bool :=
  (200 <=? res_status r)%nat && (res_status r <=? 299)%nat.

(** The status [POST /magic/spell/:spellName] answers with for the
    result of a spell: [spellResp.success ? 200 : 900]. *)
Definition spell_status (r : SpellResult) : nat :=
  match r with
  | SpellDone _ _ _ => 200
  | SpellFailed _ | SpellRefused _ _ => 900
  end.

(** A raw step with a description and nothing else. *)
Definition described (d : string) : Step :=
  mkStep None (Some d) JUndefined JUndefined None None false None None.

Section Spells.

Variable verifySignature : string -> string -> string -> bool.
Variable render : Contract -> string.

(** The body [covenantContractSign] sends to [PUT /contract/:uuid/sign]. *)
Definition covenantContractSign_body (spell : Spell) : Body :=
  mkBody (sp_casterSignature spell) (Some (js_text (sp_timestamp spell)))
         (co_userUUID (components spell)) (co_pubKey (components spell))
         None None None None None None None
         (co_stepId (components spell)) (co_stepSignature (components spell)) ∅.

(** The path of the URL [covenantContractSign] sends it to:
    [`${COVENANT_URL}contract/${uuid}/sign`], where [COVENANT_URL] is the
    origin of this service followed by [/]. *)
Definition covenantContractSign_path (spell : Spell) : string :=
  "/contract/" ++ js_text (co_uuid (components spell)) ++ "/sign".

(** [MAGIC.covenantContractSign], the request being served by this
    service; [None] when the model does not follow the request. *)
Definition covenantContractSign (env : Env) (w : World) (spell : Spell)
  : option (SpellResult * World) :=
  let co := components spell in
  if negb (present (co_uuid co)) || negb (present (co_stepId co))
     || negb (present (co_stepSignature co)) || negb (present (co_userUUID co))
     || negb (present (co_pubKey co))
  then Some (SpellFailed
               "Missing required spell components: uuid, stepId, stepSignature, userUUID, pubKey",
             w)
  else
    match route_put (covenantContractSign_path spell)
                    (covenantContractSign_body spell) with
    | None => None
    | Some request =>
      let '(answer, w') := serve verifySignature render env w request in
      if response_ok answer
      then Some (SpellDone None None (res_payload answer), w')
      else Some (SpellRefused "Contract sign failed: " answer, w')
    end.

(** The body [purchaseLesson] sends to [POST /contract]. *)
Definition purchaseLesson_body (spell : Spell) : Body :=
  let co := components spell in
  mkBody (co_contractSignature co) (Some (js_text (sp_timestamp spell)))
         (co_studentUUID co) (co_studentPubKey co)
         (Some ("Lesson: " ++ or_else (co_lessonTitle co) "Untitled Lesson"))
         (Some ("Purchase contract for " ++ or_else (co_lessonTitle co) "lesson"))
         (Some [js_text (co_teacherPubKey co); js_text (co_studentPubKey co)])
         (Some [described "Lesson Acquired"; described "See One";
                described "Do One"; described "Teach One";
                described "Grant Nineum Permission"])
         None
         (co_lessonBdoPubKey co) (co_lessonBdoPubKey co)
         None None ∅.

(** [MAGIC.purchaseLesson], the request being served by this service. *)
Definition purchaseLesson (env : Env) (w : World) (spell : Spell)
  : SpellResult * World :=
  let co := components spell in
  if negb (present (co_teacherPubKey co)) || negb (present (co_studentPubKey co))
     || negb (present (co_lessonBdoPubKey co)) || negb (present (co_studentUUID co))
     || negb (present (co_contractSignature co))
  then (SpellFailed
          "Missing required spell components: teacherPubKey, studentPubKey, lessonBdoPubKey, studentUUID, contractSignature",
        w)
  else
    let '(answer, w') :=
      post_contract verifySignature render env w (purchaseLesson_body spell) in
    if response_ok answer
    then (match res_payload answer with
          | PContract c => SpellDone (Some (uuid c)) (pubKey c) (PContract c)
          | data => SpellDone None None data
          end, w')
    else (SpellRefused "Contract creation failed: " answer, w').

End Spells.

(** ** The client *)

(** A [CovenantClient] with a [sessionless] to sign with: the user id set
    by [setUserUUID] and the public key of the keys it was built with. *)
Record Client := mkClient {
  cl_userUUID : option string;
  cl_pubKey : option string
}.

(** What [createContract] is given. *)
Record ContractData := mkContractData {
  cd_title : option string;
  cd_description : option string;
  cd_participants : option (list string);
  cd_steps : option (list Step);
  cd_productUuid : option string;
  cd_bdoLocation : option string
}.

Definition empty_body : Body :=
  mkBody None None None None None None None None None None None None None ∅.

(** A string or [null] as a JSON value. *)
Definition js_string_or_null (o : option string) : jsval :=
  match or_null o with Some s => JStr s | None => JNull end.

Section ClientSide.

(** [this.sessionless.sign(message)], with the keys of the client. *)
Variable sign : string -> string.

(** [createAuthenticatedPayload]: the four authentication properties,
    then the properties of [additionalData] spread over them. *)
Definition createAuthenticatedPayload (cl : Client) (now : string)
    (contractUUID : option string) (additionalData : Body) : outcome Body :=
  if negb (present (cl_userUUID cl)) || negb (present (cl_pubKey cl))
  then Throws
    "Sessionless authentication not properly initialized. Call setUserUUID() and ensure sessionless has keys."
  else
    let message :=
      if present contractUUID
      then now ++ js_text (cl_userUUID cl) ++ js_text contractUUID
      else now ++ js_text (cl_userUUID cl) in
    let over (extra base : option string) : option string :=
      match extra with Some v => Some v | None => base end in
    Returns
      (mkBody (over (b_signature additionalData) (Some (sign message)))
              (over (b_timestamp additionalData) (Some now))
              (over (b_userUUID additionalData) (cl_userUUID cl))
              (over (b_pubKey additionalData) (cl_pubKey cl))
              (b_title additionalData) (b_description additionalData)
              (b_participants additionalData) (b_steps additionalData)
              (b_status additionalData) (b_product_uuid additionalData)
              (b_bdo_location additionalData) (b_stepId additionalData)
              (b_stepSignature additionalData) (b_other additionalData)).

(** [CovenantClient.signStep]: the path of the URL it sends its [PUT]
    to, [`${this.baseUrl}/contract/${contractUuid}/sign`] where [baseUrl]
    is the origin of the service, and the body it sends; or the error it
    throws. *)
Definition CovenantClient_signStep (cl : Client) (now contractUuid stepId : string)
  : outcome (string * Body) :=
  match createAuthenticatedPayload cl now (Some contractUuid) empty_body with
  | Throws msg => Throws ("Sign step failed: " ++ msg)
  | Returns authPayload =>
    let stepMessage :=
      js_text (b_timestamp authPayload) ++ js_text (b_userUUID authPayload)
      ++ contractUuid ++ stepId in
    Returns
      ("/contract/" ++ contractUuid ++ "/sign",
       mkBody (b_signature authPayload) (b_timestamp authPayload)
              (b_userUUID authPayload) (b_pubKey authPayload)
              (b_title authPayload) (b_description authPayload)
              (b_participants authPayload) (b_steps authPayload)
              (b_status authPayload) (b_product_uuid authPayload)
              (b_bdo_location authPayload)
              (Some stepId) (Some (sign stepMessage)) (b_other authPayload))
  end.

(** The body [CovenantClient.createContract] sends to [POST /contract],
    or the error it throws.  The product and location travel as
    [productUuid] and [bdoLocation]. *)
Definition CovenantClient_createContract (cl : Client) (now : string)
    (contractData : ContractData) : outcome Body :=
  match createAuthenticatedPayload cl now None
          (mkBody None None None None
                  (cd_title contractData)
                  (Some (or_else (cd_description contractData) ""))
                  (Some (default [] (cd_participants contractData)))
                  (Some (default [] (cd_steps contractData)))
                  None None None None None
                  (<["productUuid" := js_string_or_null (cd_productUuid contractData)]>
                     (<["bdoLocation" := js_string_or_null (cd_bdoLocation contractData)]>
                        ∅))) with
  | Throws msg => Throws ("Create contract failed: " ++ msg)
  | Returns payload => Returns payload
  end.

End ClientSide.

(** ** More of the run: deletion, spells and the client *)
Module Tour.

(** A remote store that returns the document [c] on fetch. *)
Definition env_fetch (ts : string) (keys : Keys) (c : Contract) : Env :=
  mkEnv (fun _ => ts) ts ts ts ts "c1" (fun _ => "s1") keys
        (Returns "bdo-7") (Returns "scg-bdo-7") (Returns ())
        (Returns (Some c)) (Returns ()).

(** Create, sign twice, then a change of title while the remote store
    returns the document of the create. *)
Definition trace : list (Env * Request) :=
  [ (Run.env_up "100" Run.K1 "bdo-1", PostContract (Run.create_body JNull));
    (Run.env_down "200" Run.K2, PutContractSign "c1" (Run.sign_body Run.Pa "uA" "200"));
    (Run.env_down "300" Run.K3, PutContractSign "c1" (Run.sign_body Run.Pb "uB" "300"));
    (env_fetch "150" Run.K4 (Run.doc Run.created_up), PutContract "c1" Run.retitle_body) ].

(** Requests on [c1] that carry nothing but their authentication. *)
Definition plain (pk userUuid ts : string) : Body :=
  Run.authed pk userUuid ts "c1" Run.no_body.

Definition deleted := delete_contract Run.verify (Run.env_down "500" Run.K4) (snd Run.created) "c1" (plain Run.Pa "uA" "500").

(** The sign spell cast for [Pa] on step [s1] of [c1]. *)
Definition sign_spell : Spell :=
  mkSpell (Some "200") (Some ("sig<" ++ Run.Pa ++ ">" ++ "200uAc1"))
    (mkComponents (Some "c1") (Some "s1") (Some (Run.step_sig Run.Pa "uA" "200"))
                  (Some "uA") (Some Run.Pa) None None None None None None).

Definition spell_signed := covenantContractSign Run.verify Run.render (Run.env_down "200" Run.K2) (snd Run.created) sign_spell.

(** The lesson spell cast for the student [Pb] with the teacher [Pa]. *)
Definition lesson_spell : Spell :=
  mkSpell (Some "100") None
    (mkComponents None None None None None
                  (Some Run.Pa) (Some Run.Pb) (Some "lesson-1") (Some "Knots")
                  (Some "uB") (Some ("sig<" ++ Run.Pb ++ ">" ++ "100uB"))).

Definition lesson_bought := purchaseLesson Run.verify Run.render (Run.env_down "100" Run.K1) emptyWorld lesson_spell.

(** The client of [Pa]. *)
Definition client : Client := mkClient (Some "uA") (Some Run.Pa).

Definition client_sign (message : string) : string :=
  "sig<" ++ Run.Pa ++ ">" ++ message.

Definition contract_data : ContractData :=
  mkContractData (Some "Deal") None (Some [Run.Pa; Run.Pb])
                 (Some [Run.raw_step "Ship it" JNull]) (Some "prod-1") (Some "shelf-3").

(** The body its [createContract] sends at time 100. *)
Definition client_create_body : Body :=
  match CovenantClient_createContract client_sign client "100" contract_data with
  | Returns b => b
  | Throws _ => Run.no_body
  end.

Definition client_created := post_contract Run.verify Run.render (Run.env_down "100" Run.K1) emptyWorld client_create_body.

End Tour.

(** ** Facts about the stores *)

Section StoreFacts.

Variable render : Contract -> string.

Lemma getContractPubKey_files w id :
  contractFiles (snd (getContractPubKey w id)) = contractFiles w.
Proof.
  unfold getContractPubKey.
  destruct (contractPubKeyMap w !! id); [done|].
  destruct (mappingFile w) as [mappings|]; [|done].
  destruct (mappings !! id) as [pk|]; [|done].
  by destruct (nonempty pk).
Qed.

Lemma getKeys_files w pk :
  contractFiles (snd (getKeys w pk)) = contractFiles w.
Proof.
  unfold getKeys.
  destruct (negb (nonempty pk)); [done|].
  destruct (keyCache w !! pk); [done|].
  by destruct (keyFiles w !! pk).
Qed.

(** A read never writes a contract document. *)
Lemma loadContractFromBDO_files env w id :
  contractFiles (snd (loadContractFromBDO env w id)) = contractFiles w.
Proof.
  unfold loadContractFromBDO.
  destruct (loadContract w id) as [localContract|]; [|done].
  destruct (negb (present (bdoUuid localContract))); [done|].
  pose proof (getContractPubKey_files w id) as H1.
  destruct (getContractPubKey w id) as [[pk|msg] w1]; simpl in H1; [|done].
  pose proof (getKeys_files w1 pk) as H2.
  destruct (getKeys w1 pk) as [[keys|msg] w2]; simpl in H2; [|simpl; congruence].
  destruct (getBDO env) as [[remote|]|msg]; simpl; congruence.
Qed.

Lemma loadContractFromBDO_files' env w id oc w1 :
  loadContractFromBDO env w id = (oc, w1) -> contractFiles w1 = contractFiles w.
Proof.
  intros H. pose proof (loadContractFromBDO_files env w id) as Hf.
  by rewrite H in Hf.
Qed.

(** Without a document from the remote store, a read returns the local
    document. *)
Lemma loadContractFromBDO_local env w id :
  (forall remote, getBDO env <> Returns (Some remote)) ->
  fst (loadContractFromBDO env w id) = contractFiles w !! id.
Proof.
  intros Hremote. unfold loadContractFromBDO, loadContract.
  destruct (contractFiles w !! id) as [localContract|]; [|done].
  destruct (negb (present (bdoUuid localContract))); [done|].
  destruct (getContractPubKey w id) as [[pk|msg] w1]; [|done].
  destruct (getKeys w1 pk) as [[keys|msg] w2]; [|done].
  destruct (getBDO env) as [[remote|]|msg]; [|done|done].
  by destruct (Hremote remote).
Qed.

(** A document without a record id is read without the remote store. *)
Lemma loadContractFromBDO_no_record env w id c :
  contractFiles w !! id = Some c ->
  present (bdoUuid c) = false ->
  loadContractFromBDO env w id = (Some c, w).
Proof.
  intros Hc Hb. unfold loadContractFromBDO, loadContract. by rewrite Hc, Hb.
Qed.

(** What a save leaves of the document it was given. *)
Lemma saveContractToBDO_frame env w c :
  let saved := fst (saveContractToBDO render env w c) in
  uuid saved = uuid c /\ title saved = title c /\
  description saved = description c /\ participants saved = participants c /\
  steps saved = steps c /\ productUuid saved = productUuid c /\
  bdoLocation saved = bdoLocation c /\ createdAt saved = createdAt c /\
  updatedAt saved = updatedAt c /\ status saved = status c /\
  creator saved = creator c.
Proof.
  unfold saveContractToBDO.
  destruct (createUser env) as [rid|msg]; simpl; [|done].
  destruct (generateContractSVG _ _), (createUserScg env); simpl; done.
Qed.

(** Every save stamps the pair drawn during that save. *)
Lemma saveContractToBDO_pubKey env w c :
  pubKey (fst (saveContractToBDO render env w c)) = Some (k_pubKey (newKeys env)).
Proof.
  unfold saveContractToBDO.
  destruct (createUser env) as [rid|msg]; simpl; [|done].
  destruct (generateContractSVG _ _), (createUserScg env); simpl; done.
Qed.

(** ... and binds the contract to it, in the cache and in the file. *)
Lemma saveContractToBDO_binding env w c :
  let w' := snd (saveContractToBDO render env w c) in
  contractPubKeyMap w' !! uuid c = Some (k_pubKey (newKeys env)) /\
  (exists mappings, mappingFile w' = Some mappings /\
                    mappings !! uuid c = Some (k_pubKey (newKeys env))).
Proof.
  unfold saveContractToBDO.
  destruct (createUser env) as [rid|msg]; simpl.
  - split; [by rewrite lookup_insert_eq|].
    eexists; split; [done|]. by rewrite lookup_insert_eq.
  - split; [by rewrite lookup_insert_eq|].
    eexists; split; [done|]. by rewrite lookup_insert_eq.
Qed.

(** The local document is written last, under the contract's id. *)
Lemma saveContractToBDO_files env w c :
  contractFiles (snd (saveContractToBDO render env w c))
  = <[uuid c := fst (saveContractToBDO render env w c)]> (contractFiles w).
Proof.
  unfold saveContractToBDO.
  destruct (createUser env) as [rid|msg]; simpl; [|done].
  destruct (generateContractSVG _ _), (createUserScg env); simpl; done.
Qed.

Lemma saveContractToBDO_stored env w c :
  contractFiles (snd (saveContractToBDO render env w c)) !! uuid c
  = Some (fst (saveContractToBDO render env w c)).
Proof. rewrite saveContractToBDO_files. apply lookup_insert_eq. Qed.

(** When the remote store refuses the record, the document is saved
    with the new key and nothing else added. *)
Lemma saveContractToBDO_down env w c msg :
  createUser env = Throws msg ->
  fst (saveContractToBDO render env w c)
  = set_pubKey c (Some (k_pubKey (newKeys env))).
Proof. intros H. unfold saveContractToBDO. by rewrite H. Qed.

End StoreFacts.

(** ** Facts about signing *)

Section SignFacts.

Variable verifySignature : string -> string -> string -> bool.
Variable render : Contract -> string.

#[local] Abbreviation put_contract_sign := (put_contract_sign verifySignature render).
#[local] Abbreviation reaches_step := (reaches_step verifySignature).
#[local] Abbreviation step_signature_ok := (step_signature_ok verifySignature).

Lemma includes_spec x l : includes x l = true <-> x ∈ l.
Proof.
  unfold includes. rewrite existsb_exists. split.
  - intros (y & Hy & Heq). apply String.eqb_eq in Heq as ->.
    by apply list_elem_of_In.
  - intros Hx. exists x. split; [by apply list_elem_of_In|apply String.eqb_refl].
Qed.

Lemma find_update_first {A} (p : A -> bool) (y : A) (l : list A) (x : A) :
  find p l = Some x -> p y = true ->
  find p (update_first p (fun _ => y) l) = Some y.
Proof.
  intros Hfind Hy. induction l as [|a l IH]; simpl in *; [done|].
  destruct (p a) eqn:Ha; simpl.
  - by rewrite Hy.
  - rewrite Ha. by apply IH.
Qed.

Lemma find_has_id stepId l step :
  find (has_id stepId) l = Some step -> has_id stepId step = true.
Proof. intros H. by apply find_some in H as [_ ?]. Qed.

(** Signing leaves the id of the step alone and stores the extended
    signature object. *)
Lemma signStep_id env ps pk r m step :
  step_id (signStep env ps pk r m step) = step_id step.
Proof. unfold signStep. by destruct (_ && _). Qed.

Lemma signStep_signatures env ps pk r m step :
  signatures (signStep env ps pk r m step) = Some (<[pk := Some r]> m).
Proof. unfold signStep. by destruct (_ && _). Qed.

Lemma signStep_magicSpell env ps pk r m step :
  magicSpell (signStep env ps pk r m step) = magicSpell step.
Proof. unfold signStep. by destruct (_ && _). Qed.

Lemma signStep_completed env ps pk r m step :
  completed (signStep env ps pk r m step)
  = completed step || forallb (not_null (<[pk := Some r]> m)) ps.
Proof.
  unfold signStep.
  destruct (forallb _ ps), (completed step); done.
Qed.

Lemma signStep_completedAt env ps pk r m step :
  completedAt (signStep env ps pk r m step)
  = if forallb (not_null (<[pk := Some r]> m)) ps && negb (completed step)
    then Some (t_completed env) else completedAt step.
Proof. unfold signStep. by destruct (_ && _). Qed.

(** What the gate returns is what the body carries. *)
Lemma verifySessionlessAuth_inr b target auth :
  verifySessionlessAuth verifySignature b target = inr auth ->
  b_signature b = Some (a_signature auth) /\
  b_timestamp b = Some (a_timestamp auth) /\
  b_userUUID b = Some (a_userUUID auth) /\
  b_pubKey b = Some (a_pubKey auth).
Proof.
  unfold verifySessionlessAuth.
  destruct (b_signature b), (b_timestamp b), (b_userUUID b), (b_pubKey b);
    try done.
  destruct (_ && _); [|done].
  destruct (verifySignature _ _ _); [|done].
  by intros [= <-].
Qed.

Lemma verifySessionlessAuth_inl b target sent :
  verifySessionlessAuth verifySignature b target = inl sent ->
  res_status sent = 401 /\ res_success sent = false.
Proof.
  unfold verifySessionlessAuth.
  destruct (b_signature b), (b_timestamp b), (b_userUUID b), (b_pubKey b);
    try (intros [= <-]; done).
  destruct (_ && _); [|intros [= <-]; done].
  destruct (verifySignature _ _ _); [done|intros [= <-]; done].
Qed.

(** No request is accepted, and none writes a contract document, unless
    its step signature verifies. *)
Lemma sign_needs_step_signature env w id b :
  step_signature_verifies verifySignature id b = false ->
  res_success (fst (put_contract_sign env w id b)) = false /\
  contractFiles (snd (put_contract_sign env w id b)) = contractFiles w.
Proof.
  intros Hbad. unfold put_contract_sign.
  destruct (verifySessionlessAuth verifySignature b (Some id)) as [sent|auth] eqn:Hgate.
  { by apply verifySessionlessAuth_inl in Hgate as [_ ?]. }
  apply verifySessionlessAuth_inr in Hgate as (_ & Hts & Huu & Hpk).
  destruct (loadContractFromBDO env w id) as [[contract|] w1] eqn:Hload;
    apply loadContractFromBDO_files' in Hload; [|done].
  destruct (negb (includes _ _)); [done|].
  destruct (b_stepId b) as [stepId|] eqn:Hid; [|done].
  destruct (b_stepSignature b) as [stepSignature|] eqn:Hsig; [|done].
  destruct (_ && _); [|done].
  destruct (find _ _) as [step|]; [|done].
  unfold step_signature_verifies in Hbad.
  rewrite Hts, Huu, Hpk, Hid, Hsig in Hbad.
  unfold stepMessage. by rewrite Hbad.
Qed.

(** A request stopped at the check of the step signature. *)
Lemma sign_rejected env w id b auth contract w1 stepId stepSignature step :
  reaches_step env w id b auth contract w1 stepId stepSignature step ->
  step_signature_ok auth id stepId stepSignature = false ->
  put_contract_sign env w id b = (failure 401 "Invalid step signature", w1).
Proof.
  intros (Hauth & Hload & Hin & Hid & Hsig & Hne1 & Hne2 & Hfind) Hbad.
  unfold put_contract_sign. rewrite Hauth, Hload, Hin, Hid, Hsig; simpl.
  rewrite Hne1, Hne2, Hfind; simpl.
  unfold step_signature_ok in Hbad. by rewrite Hbad.
Qed.

(** A step without a signature object makes the assignment throw. *)
Lemma sign_throws env w id b auth contract w1 stepId stepSignature step :
  reaches_step env w id b auth contract w1 stepId stepSignature step ->
  step_signature_ok auth id stepId stepSignature = true ->
  signatures step = None ->
  put_contract_sign env w id b = (failure 500 "Failed to add signature", w1).
Proof.
  intros (Hauth & Hload & Hin & Hid & Hsig & Hne1 & Hne2 & Hfind) Hok Hnone.
  unfold put_contract_sign. rewrite Hauth, Hload, Hin, Hid, Hsig; simpl.
  rewrite Hne1, Hne2, Hfind; simpl.
  unfold step_signature_ok in Hok. by rewrite Hok, Hnone.
Qed.

(** A request that passes it: the answer and the world it leaves. *)
Lemma sign_accepted env w id b auth contract w1 stepId stepSignature step m :
  reaches_step env w id b auth contract w1 stepId stepSignature step ->
  step_signature_ok auth id stepId stepSignature = true ->
  signatures step = Some m ->
  let step' := signStep env (participants contract) (a_pubKey auth)
                 (newRecord env auth id stepId stepSignature) m step in
  put_contract_sign env w id b
  = (ok (PSigned id stepId (completed step')
                 (completed step' && truthy (magicSpell step'))),
     snd (saveContractToBDO render env w1 (withStep env contract stepId step'))).
Proof.
  intros (Hauth & Hload & Hin & Hid & Hsig & Hne1 & Hne2 & Hfind) Hok Hm.
  unfold put_contract_sign. rewrite Hauth, Hload, Hin, Hid, Hsig; simpl.
  rewrite Hne1, Hne2, Hfind; simpl.
  unfold step_signature_ok in Hok. rewrite Hok, Hm; simpl.
  by destruct (saveContractToBDO _ _ _ _).
Qed.

(** After it, the stored document holds the signed step. *)
Lemma sign_stored env w id b auth contract w1 stepId stepSignature step m :
  reaches_step env w id b auth contract w1 stepId stepSignature step ->
  step_signature_ok auth id stepId stepSignature = true ->
  signatures step = Some m ->
  stored_step (snd (put_contract_sign env w id b)) (uuid contract) stepId
    (fun step' =>
       step' = signStep env (participants contract) (a_pubKey auth)
                 (newRecord env auth id stepId stepSignature) m step).
Proof.
  intros Hreach Hok Hm.
  rewrite (sign_accepted _ _ _ _ _ _ _ _ _ _ _ Hreach Hok Hm); simpl.
  destruct Hreach as (_ & _ & _ & _ & _ & _ & _ & Hfind).
  set (step' := signStep _ _ _ _ _ _).
  set (c' := withStep env contract stepId step').
  exists (fst (saveContractToBDO render env w1 c')), step'.
  split; [|split; [|done]].
  - change (uuid contract) with (uuid c'). apply saveContractToBDO_stored.
  - destruct (saveContractToBDO_frame render env w1 c')
      as (_ & _ & _ & _ & -> & _).
    simpl. apply (find_update_first _ _ _ step); [done|].
    apply find_has_id in Hfind. unfold has_id in *.
    subst step'. by rewrite signStep_id.
Qed.

End SignFacts.

(** ** The sign-step operation *)

Section SignStep.

Variable verifySignature : string -> string -> string -> bool.
Variable render : Contract -> string.

#[local] Abbreviation put_contract_sign := (put_contract_sign verifySignature render).
#[local] Abbreviation reaches_step := (reaches_step verifySignature).
#[local] Abbreviation step_signature_ok := (step_signature_ok verifySignature).

(** C5.  A sign request on a contract that the read finds, by a caller
    whose key is not among its participants, writes no contract document,
    so every signature map is as it was; it is refused by the gate with
    401 when its endpoint signature fails, and otherwise answered 403
    "User not authorized for this contract", whatever [stepId] and
    [stepSignature] it carries, a step signature that verifies included. *)
Theorem C5_non_participant_forbidden env w id b contract w1 pk :
  loadContractFromBDO env w id = (Some contract, w1) ->
  b_pubKey b = Some pk ->
  includes pk (participants contract) = false ->
  contractFiles (snd (put_contract_sign env w id b)) = contractFiles w /\
  match verifySessionlessAuth verifySignature b (Some id) with
  | inr _ =>
    fst (put_contract_sign env w id b)
    = failure 403 "User not authorized for this contract"
  | inl sent =>
    fst (put_contract_sign env w id b) = sent /\ res_status sent = 401
  end.
Proof.
  intros Hload Hpk Hout. unfold put_contract_sign.
  destruct (verifySessionlessAuth verifySignature b (Some id)) as [sent|auth] eqn:Hgate.
  { by apply verifySessionlessAuth_inl in Hgate as [? _]. }
  apply verifySessionlessAuth_inr in Hgate as (_ & _ & _ & Hpk').
  rewrite Hpk in Hpk'. injection Hpk' as <-.
  rewrite Hload, Hout. simpl. split; [|done].
  by apply loadContractFromBDO_files' in Hload.
Qed.

(** C3.  For a sign request that gets as far as the check of the step
    signature (the gate passed, the contract read, the caller a
    participant, [stepId] and [stepSignature] given, the step found):
    when [stepSignature] does not verify over
    [timestamp + userUUID + contractUUID + stepId] under the caller's key
    the answer is 401 "Invalid step signature" and no contract document
    changes; when it verifies and the step has a signature object, the
    answer is 200 and the stored step holds, under the caller's key, the
    record made of the signature, the timestamp, the key, the signed text
    and the signing time.  And whatever else a sign request does, when
    its step signature does not verify it is not accepted and no contract
    document changes. *)
Theorem C3_step_signature_decides env w id b auth contract w1
    stepId stepSignature step :
  reaches_step env w id b auth contract w1 stepId stepSignature step ->
  stepMessage auth id stepId
  = a_timestamp auth ++ a_userUUID auth ++ id ++ stepId /\
  (if verifySignature stepSignature (stepMessage auth id stepId) (a_pubKey auth)
  then
    match signatures step with
    | Some m =>
      res_status (fst (put_contract_sign env w id b)) = 200 /\
      stored_step (snd (put_contract_sign env w id b)) (uuid contract) stepId
        (fun step' =>
           exists m', signatures step' = Some m' /\
             m' !! a_pubKey auth
             = Some (Some (mkSignatureRecord stepSignature (a_timestamp auth)
                             (a_pubKey auth) (stepMessage auth id stepId)
                             (t_signed env))))
    | None =>
      fst (put_contract_sign env w id b) = failure 500 "Failed to add signature" /\
      contractFiles (snd (put_contract_sign env w id b)) = contractFiles w
    end
  else
    fst (put_contract_sign env w id b) = failure 401 "Invalid step signature" /\
    contractFiles (snd (put_contract_sign env w id b)) = contractFiles w) /\
  (forall env2 w2 id2 b2,
     step_signature_verifies verifySignature id2 b2 = false ->
     res_success (fst (put_contract_sign env2 w2 id2 b2)) = false /\
     contractFiles (snd (put_contract_sign env2 w2 id2 b2)) = contractFiles w2).
Proof.
  intros Hreach. split; [done|].
  split; [|apply sign_needs_step_signature].
  assert (Hfiles : contractFiles w1 = contractFiles w).
  { destruct Hreach as (_ & Hload & _).
    by apply loadContractFromBDO_files' in Hload. }
  destruct (verifySignature _ _ _) eqn:Hv.
  - destruct (signatures step) as [m|] eqn:Hm.
    + split.
      * by rewrite (sign_accepted _ _ _ _ _ _ _ _ _ _ _ _ _ Hreach Hv Hm).
      * destruct (sign_stored _ render _ _ _ _ _ _ _ _ _ _ _ Hreach Hv Hm)
          as (saved & step' & Hsaved & Hfind & ->).
        exists saved; eexists. split; [done|]. split; [done|].
        eexists. split; [apply signStep_signatures|].
        by rewrite lookup_insert_eq.
    + by rewrite (sign_throws _ render _ _ _ _ _ _ _ _ _ _ Hreach Hv Hm).
  - by rewrite (sign_rejected _ render _ _ _ _ _ _ _ _ _ _ Hreach Hv).
Qed.

(** C1, as the code has it.  A sign request on a step whose [completed]
    flag is already true is not turned away: when it gets as far as the
    step, the step signature verifies and the step has a signature object,
    the answer is 200 with [stepCompleted] true, the caller's entry of the
    stored step is overwritten by the new record, and the step keeps
    [completed] true and its [completedAt]. *)
Theorem C1_completed_step_signed_again env w id b auth contract w1
    stepId stepSignature step m :
  reaches_step env w id b auth contract w1 stepId stepSignature step ->
  step_signature_ok auth id stepId stepSignature = true ->
  signatures step = Some m ->
  completed step = true ->
  fst (put_contract_sign env w id b)
  = ok (PSigned id stepId true (truthy (magicSpell step))) /\
  stored_step (snd (put_contract_sign env w id b)) (uuid contract) stepId
    (fun step' =>
       signatures step'
       = Some (<[a_pubKey auth
                 := Some (newRecord env auth id stepId stepSignature)]> m) /\
       completed step' = true /\
       completedAt step' = completedAt step).
Proof.
  intros Hreach Hv Hm Hdone. split.
  - rewrite (sign_accepted _ _ _ _ _ _ _ _ _ _ _ _ _ Hreach Hv Hm). simpl.
    by rewrite signStep_completed, signStep_magicSpell, Hdone.
  - destruct (sign_stored _ render _ _ _ _ _ _ _ _ _ _ _ Hreach Hv Hm)
      as (saved & step' & Hsaved & Hfind & ->).
    exists saved; eexists. split; [done|]. split; [done|].
    rewrite signStep_signatures, signStep_completed, signStep_completedAt, Hdone.
    by rewrite andb_false_r.
Qed.

(** C4, as the code has it.  For every sign request that succeeds, with
    [m'] the signature object after the new record is installed and
    [allSigned] true when no participant's entry of [m'] is [null]: the
    stored step is completed exactly when it was completed before or
    [allSigned] holds; [completedAt] is set to the current time when the
    flag goes from false to true and is kept otherwise; the answer reports
    that flag as [stepCompleted] and its conjunction with the truthiness
    of [magicSpell] as [magicTriggered]. *)
Theorem C4_completion_recomputed env w id b auth contract w1
    stepId stepSignature step m :
  reaches_step env w id b auth contract w1 stepId stepSignature step ->
  step_signature_ok auth id stepId stepSignature = true ->
  signatures step = Some m ->
  let m' := <[a_pubKey auth := Some (newRecord env auth id stepId stepSignature)]> m in
  let allSigned := forallb (not_null m') (participants contract) in
  let flag := completed step || allSigned in
  fst (put_contract_sign env w id b)
  = ok (PSigned id stepId flag (flag && truthy (magicSpell step))) /\
  stored_step (snd (put_contract_sign env w id b)) (uuid contract) stepId
    (fun step' =>
       signatures step' = Some m' /\
       completed step' = flag /\
       completedAt step'
       = if allSigned && negb (completed step)
         then Some (t_completed env) else completedAt step).
Proof.
  intros Hreach Hv Hm m' allSigned flag. split.
  - rewrite (sign_accepted _ _ _ _ _ _ _ _ _ _ _ _ _ Hreach Hv Hm). simpl.
    by rewrite signStep_completed, signStep_magicSpell.
  - destruct (sign_stored _ render _ _ _ _ _ _ _ _ _ _ _ Hreach Hv Hm)
      as (saved & step' & Hsaved & Hfind & ->).
    exists saved; eexists. split; [done|]. split; [done|].
    by rewrite signStep_signatures, signStep_completed, signStep_completedAt.
Qed.

(** C10.  The completion test is [signatures[participant] !== null], which
    an absent key passes.  So when a sign request succeeds on a step that
    is not completed and in whose signature object no other participant
    has a [null] entry (each is absent or already a record), the step is
    completed by this one signature: the answer reports [stepCompleted]
    true, the stored step has [completed] true and the completion time,
    and every participant whose key was absent and who is not the caller
    still has no entry, hence no signature record. *)
Theorem C10_absent_entry_counts_as_signed env w id b auth contract w1
    stepId stepSignature step m :
  reaches_step env w id b auth contract w1 stepId stepSignature step ->
  step_signature_ok auth id stepId stepSignature = true ->
  signatures step = Some m ->
  completed step = false ->
  (forall p, p ∈ participants contract -> p <> a_pubKey auth -> m !! p <> Some None) ->
  (forall p, m !! p = None -> not_null m p = true) /\
  fst (put_contract_sign env w id b)
  = ok (PSigned id stepId true (truthy (magicSpell step))) /\
  stored_step (snd (put_contract_sign env w id b)) (uuid contract) stepId
    (fun step' =>
       completed step' = true /\
       completedAt step' = Some (t_completed env) /\
       exists m', signatures step' = Some m' /\
         forall p, p <> a_pubKey auth -> m !! p = None -> m' !! p = None).
Proof.
  intros Hreach Hv Hm Hopen Hothers.
  split; [by intros p Hp; unfold not_null; rewrite Hp|].
  assert (Hall : forallb
                   (not_null (<[a_pubKey auth
                                := Some (newRecord env auth id stepId stepSignature)]> m))
                   (participants contract) = true).
  { apply forallb_forall. intros p Hp%list_elem_of_In. unfold not_null.
    destruct (decide (p = a_pubKey auth)) as [->|Hne].
    - by rewrite lookup_insert_eq.
    - rewrite lookup_insert_ne by done.
      specialize (Hothers p Hp Hne).
      by destruct (m !! p) as [[?|]|]. }
  split.
  - rewrite (sign_accepted _ _ _ _ _ _ _ _ _ _ _ _ _ Hreach Hv Hm). simpl.
    by rewrite signStep_completed, signStep_magicSpell, Hall, Hopen.
  - destruct (sign_stored _ render _ _ _ _ _ _ _ _ _ _ _ Hreach Hv Hm)
      as (saved & step' & Hsaved & Hfind & ->).
    exists saved; eexists. split; [done|]. split; [done|].
    rewrite signStep_completed, signStep_completedAt, Hall, Hopen.
    split; [done|]. split; [done|].
    eexists. split; [apply signStep_signatures|].
    intros p Hne Hp. by rewrite lookup_insert_ne.
Qed.

End SignStep.

(** ** Validation, update, authentication and the remote store *)

Section Lifecycle.

Variable verifySignature : string -> string -> string -> bool.
Variable render : Contract -> string.

#[local] Abbreviation verifySessionlessAuth := (verifySessionlessAuth verifySignature).
#[local] Abbreviation post_contract := (post_contract verifySignature render).
#[local] Abbreviation put_contract := (put_contract verifySignature render).
#[local] Abbreviation put_contract_sign := (put_contract_sign verifySignature render).
#[local] Abbreviation delete_contract := (delete_contract verifySignature).
#[local] Abbreviation put_user_create := (put_user_create verifySignature).
#[local] Abbreviation get_user := (get_user verifySignature).
#[local] Abbreviation reaches_validation := (reaches_validation verifySignature).
#[local] Abbreviation reaches_store := (reaches_store verifySignature).
#[local] Abbreviation signature_verifies := (signature_verifies verifySignature).

Lemma validateSteps_None i l :
  validateSteps i l = None
  <-> Forall (fun s => present (step_description s) = true) l.
Proof.
  revert i. induction l as [|s l IH]; intros i; simpl.
  - split; [constructor|done].
  - destruct (present (step_description s)) eqn:Hs; simpl.
    + rewrite IH. split; [by constructor|by inversion 1].
    + split; [done|]. inversion 1; congruence.
Qed.

(** When validation passes. *)
Lemma validateContract_None c :
  validateContract c = None
  <-> present (title c) = true /\ 2 <= List.length (participants c) /\
      steps c <> [] /\
      Forall (fun s => present (step_description s) = true) (steps c).
Proof.
  unfold validateContract.
  destruct (present (title c)); simpl; [|by split; [|intros [? _]]].
  destruct (Nat.ltb_spec (List.length (participants c)) 2) as [Hlt|Hge].
  { split; [done|]. intros (_ & Hp & _). lia. }
  destruct (Nat.eqb_spec (List.length (steps c)) 0) as [Hz|Hnz].
  { split; [done|]. intros (_ & _ & Hs & _).
    by destruct (steps c). }
  rewrite validateSteps_None. split.
  - intros Hall. repeat split; [done| |done]. by intros Heq; rewrite Heq in Hnz.
  - by intros (_ & _ & _ & Hall).
Qed.

Lemma validateContract_participants c :
  present (title c) = true ->
  List.length (participants c) < 2 ->
  validateContract c = Some "Contract must have at least 2 participants".
Proof.
  intros Ht Hp. unfold validateContract. rewrite Ht. simpl.
  by destruct (Nat.ltb_spec (List.length (participants c)) 2); [|lia].
Qed.

Lemma signature_fails_gate b target :
  signature_verifies b target = false ->
  exists sent, verifySessionlessAuth b target = inl sent /\ res_status sent = 401.
Proof.
  intros Hf.
  destruct (verifySessionlessAuth b target) as [sent|auth] eqn:Hgate.
  - exists sent. split; [done|]. by apply verifySessionlessAuth_inl in Hgate as [? _].
  - exfalso. revert Hgate Hf.
    unfold verifySessionlessAuth, signature_verifies.
    destruct (b_signature b), (b_timestamp b), (b_userUUID b), (b_pubKey b);
      try done.
    destruct (_ && _); [|done].
    by destruct (verifySignature _ _ _).
Qed.

(** [PUT /contract/:uuid] reads nothing of the body but the
    authentication properties and the four allowed fields. *)
Lemma put_contract_reads env w id b :
  put_contract env w id b = put_contract env w id (update_view b).
Proof. reflexivity. Qed.

(** An update that passes validation: the answer and the world. *)
Lemma update_accepted env w id b auth contract w1 :
  reaches_validation env w id b auth contract w1 ->
  validateContract (set_updatedAt (overlay contract b) (t_updated env)) = None ->
  put_contract env w id b
  = (ok (PContract
           (fst (saveContractToBDO render env w1
                   (set_updatedAt (overlay contract b) (t_updated env))))),
     snd (saveContractToBDO render env w1
            (set_updatedAt (overlay contract b) (t_updated env)))).
Proof.
  intros (Hauth & Hload & Hallowed) Hvalid.
  unfold put_contract. rewrite Hauth, Hload, Hallowed. simpl.
  rewrite Hvalid. by destruct (saveContractToBDO _ _ _ _).
Qed.

(** A create that passes validation: the answer and the world. *)
Lemma create_accepted env w b auth :
  reaches_store env b auth ->
  post_contract env w b
  = (ok (PContract
           (fst (saveContractToBDO render env w
                   (set_steps (newContract env b auth)
                      (initSignatures (participants (newContract env b auth))
                         <$> steps (newContract env b auth)))))),
     snd (saveContractToBDO render env w
            (set_steps (newContract env b auth)
               (initSignatures (participants (newContract env b auth))
                  <$> steps (newContract env b auth))))).
Proof.
  intros (Hauth & Hvalid).
  unfold post_contract. rewrite Hauth. cbv zeta. rewrite Hvalid.
  by destruct (saveContractToBDO _ _ _ _).
Qed.

(** C6, as the code has it.  Validation refuses a contract with fewer than
    two participants, and that is all it asks of the participants: it
    passes exactly when the title is non-empty, there are at least two
    participants, at least one step, and every step has a non-empty
    description.  A create request that passes the gate with fewer than
    two participants is answered 400 and stores nothing, the text being
    "Contract must have at least 2 participants" unless the title is
    missing too; an update whose overlaid contract fails validation is
    answered 400 with the violation found and stores nothing. *)
Theorem C6_validation_counts_participants env w b auth :
  verifySessionlessAuth b None = inr auth ->
  List.length (default [] (b_participants b)) < 2 ->
  post_contract env w b
  = (failure 400 (if present (b_title b)
                  then "Contract must have at least 2 participants"
                  else "Contract must have a title"), w) /\
  (forall c,
     validateContract c = None
     <-> present (title c) = true /\ 2 <= List.length (participants c) /\
         steps c <> [] /\
         Forall (fun s => present (step_description s) = true) (steps c)) /\
  (forall id b' auth' contract w1 violation,
     reaches_validation env w id b' auth' contract w1 ->
     validateContract (set_updatedAt (overlay contract b') (t_updated env))
     = Some violation ->
     put_contract env w id b' = (failure 400 violation, w1)).
Proof.
  intros Hauth Hfew. split; [|split].
  - unfold post_contract. rewrite Hauth. cbv zeta.
    destruct (present (b_title b)) eqn:Htitle.
    + by rewrite (validateContract_participants (newContract env b auth)).
    + unfold validateContract. simpl. by rewrite Htitle.
  - apply validateContract_None.
  - intros id b' auth' contract w1 violation (Hauth' & Hload & Hallowed) Hbad.
    unfold put_contract. rewrite Hauth', Hload, Hallowed. simpl.
    by rewrite Hbad.
Qed.

(** C7, as the code has it.  An update that passes the gate, the
    authorization and validation reads nothing of the request but the
    authentication properties and [title], [description], [steps] and
    [status]; the stored document takes those four from the request where
    it defines them and from the contract read otherwise, carries the new
    modification time, and has the [uuid], [creator], [participants],
    [createdAt], [productUuid] and [bdoLocation] of the contract read. *)
Theorem C7_update_overlays_allowed_fields env w id b auth contract w1 :
  reaches_validation env w id b auth contract w1 ->
  validateContract (set_updatedAt (overlay contract b) (t_updated env)) = None ->
  put_contract env w id b = put_contract env w id (update_view b) /\
  exists saved,
    fst (put_contract env w id b) = ok (PContract saved) /\
    contractFiles (snd (put_contract env w id b)) !! uuid contract = Some saved /\
    title saved
    = match b_title b with Some t => Some t | None => title contract end /\
    description saved = default (description contract) (b_description b) /\
    steps saved = default (steps contract) (b_steps b) /\
    status saved = default (status contract) (b_status b) /\
    updatedAt saved = t_updated env /\
    uuid saved = uuid contract /\
    creator saved = creator contract /\
    participants saved = participants contract /\
    createdAt saved = createdAt contract /\
    productUuid saved = productUuid contract /\
    bdoLocation saved = bdoLocation contract.
Proof.
  intros Hreach Hvalid. split; [apply put_contract_reads|].
  rewrite (update_accepted _ _ _ _ _ _ _ Hreach Hvalid). simpl.
  set (c' := set_updatedAt (overlay contract b) (t_updated env)).
  exists (fst (saveContractToBDO render env w1 c')). split; [done|].
  split; [change (uuid contract) with (uuid c'); apply saveContractToBDO_stored|].
  destruct (saveContractToBDO_frame render env w1 c')
    as (-> & -> & -> & -> & -> & -> & -> & -> & -> & -> & ->).
  done.
Qed.

(** C8, as the code has it.  A contract endpoint whose endpoint signature
    is missing or does not verify answers 401 (create, update, sign-step
    and delete alike) and leaves the world as it was; the two user
    endpoints answer 403 "Authentication failed" instead. *)
Theorem C8_failed_authentication_status env w id b0 b ub uid uts usig user :
  signature_verifies b0 None = false ->
  signature_verifies b (Some id) = false ->
  (negb (present (uc_signature ub))
   || negb (verifySignature (js_text (uc_signature ub))
              (js_text (uc_timestamp ub) ++ uc_pubKey ub) (uc_pubKey ub))) = true ->
  userFiles w !! uid = Some user ->
  (negb (present usig)
   || negb (verifySignature (js_text usig) (js_text uts ++ uid) (u_pubKey user)))
  = true ->
  (res_status (fst (post_contract env w b0)) = 401 /\
   snd (post_contract env w b0) = w) /\
  (res_status (fst (put_contract env w id b)) = 401 /\
   snd (put_contract env w id b) = w) /\
  (res_status (fst (put_contract_sign env w id b)) = 401 /\
   snd (put_contract_sign env w id b) = w) /\
  (res_status (fst (delete_contract env w id b)) = 401 /\
   snd (delete_contract env w id b) = w) /\
  put_user_create env w ub = (failure 403 "Authentication failed", w) /\
  get_user w uid uts usig = (failure 403 "Authentication failed", w).
Proof.
  intros H0 H1 Hcreate Huser Hfetch.
  destruct (signature_fails_gate _ _ H0) as (sent0 & Hgate0 & Hst0).
  destruct (signature_fails_gate _ _ H1) as (sent1 & Hgate1 & Hst1).
  unfold post_contract, put_contract, put_contract_sign, delete_contract.
  rewrite Hgate0, Hgate1. simpl.
  repeat split; try done.
  - unfold put_user_create. by rewrite Hcreate.
  - unfold get_user. by rewrite Huser, Hfetch.
Qed.

(** C9.  With the remote store unreachable ([bdo.createUser] throws), a
    create request that passes the gate and validation is answered 200
    with the contract; the contract is stored locally under its id, with a
    public key and no remote record id; any later read of that id answers
    200 with the same contract, whatever the remote store does then.  And
    whenever a read finds a local document and the remote fetch throws,
    the read answers 200 with the local document. *)
Theorem C9_remote_outage_not_surfaced env w b auth msg env' :
  reaches_store env b auth ->
  createUser env = Throws msg ->
  (exists c,
     fst (post_contract env w b) = ok (PContract c) /\
     uuid c = newUUID env /\
     contractFiles (snd (post_contract env w b)) !! newUUID env = Some c /\
     pubKey c = Some (k_pubKey (newKeys env)) /\
     bdoUuid c = None /\
     get_contract env' (snd (post_contract env w b)) (newUUID env)
     = (ok (PContract c), snd (post_contract env w b))) /\
  (forall env2 w2 id2 c2 msg2,
     contractFiles w2 !! id2 = Some c2 ->
     getBDO env2 = Throws msg2 ->
     fst (get_contract env2 w2 id2) = ok (PContract c2)).
Proof.
  intros Hreach Hdown. split.
  - rewrite (create_accepted _ _ _ _ Hreach).
    set (c0 := set_steps _ _).
    rewrite (saveContractToBDO_down render env w c0 msg Hdown).
    eexists. split; [done|]. split; [done|].
    assert (Hstored :
      contractFiles (snd (saveContractToBDO render env w c0)) !! newUUID env
      = Some (set_pubKey c0 (Some (k_pubKey (newKeys env))))).
    { rewrite <- (saveContractToBDO_down render env w c0 msg Hdown).
      apply (saveContractToBDO_stored render env w c0). }
    simpl. split; [done|]. split; [done|]. split; [done|].
    unfold get_contract.
    by rewrite (loadContractFromBDO_no_record env' _ _ _ Hstored).
  - intros env2 w2 id2 c2 msg2 Hlocal Hthrows.
    pose proof (loadContractFromBDO_local env2 w2 id2) as Hread.
    unfold get_contract.
    destruct (loadContractFromBDO env2 w2 id2) as [oc w3]. simpl in Hread.
    rewrite Hread, Hlocal; [done|]. intros remote. by rewrite Hthrows.
Qed.

End Lifecycle.

(** ** The run, checked against the theorems *)

(** Two participants, one step: [Pa] signs, then [Pb], and the step is
    complete. *)
Example happy_path :
  fst Run.signed_a = ok (PSigned "c1" "s1" false false) /\
  fst Run.signed_b = ok (PSigned "c1" "s1" true false) /\
  completed (Run.step1 (Run.doc Run.signed_b)) = true.
Proof. vm_compute. done. Qed.

(** Evaluation of [PUT /contract/c1/sign] by [Pa] in the world where the
    step is complete: the step found is completed, the gate and the step
    signature pass, and the theorem gives the answer and the stored step. *)
Lemma C1_completed_step_signed_again_witness :
  fst Run.signed_again = ok (PSigned "c1" "s1" true false) /\
  stored_step (snd Run.signed_again) "c1" "s1"
    (fun step' =>
       signatures step'
       = Some (<[Run.Pa := Some (mkSignatureRecord (Run.step_sig Run.Pa "uA" "400")
                                   "400" Run.Pa "400uAc1s1" "400")]>
                 (Run.sigs (Run.step1 (Run.doc Run.signed_b)))) /\
       completed step' = true /\
       completedAt step' = Some "300").
Proof.
  refine (C1_completed_step_signed_again Run.verify Run.render
            (Run.env_down "400" Run.K4) (snd Run.signed_b) "c1"
            (Run.sign_body Run.Pa "uA" "400")
            (Run.auth_of Run.Pa "uA" "400" "c1") (Run.doc Run.signed_b)
            (snd Run.signed_b) "s1" (Run.step_sig Run.Pa "uA" "400")
            (Run.step1 (Run.doc Run.signed_b))
            (Run.sigs (Run.step1 (Run.doc Run.signed_b))) _ _ _ _);
    [unfold reaches_step; split_and!|..]; vm_compute; reflexivity.
Defined.

(** C1 as the specification words it does not hold there: the step of
    [c1] is completed when [Pa] signs again, and the request is answered
    200, not refused, and the entry of [Pa] goes from the record of time
    200 to the record of time 400. *)
Lemma C1_completed_step_not_rejected :
  completed (Run.step1 (Run.doc Run.signed_b)) = true /\
  find (has_id "s1") (steps (Run.doc Run.signed_b))
  = Some (Run.step1 (Run.doc Run.signed_b)) /\
  res_status (fst Run.signed_again) = 200 /\
  res_success (fst Run.signed_again) = true /\
  Run.signed_time (Run.sigs (Run.step1 (Run.doc Run.signed_b))) Run.Pa
  = Some "200" /\
  Run.signed_time (Run.sigs (Run.step1 (Run.doc Run.signed_again))) Run.Pa
  = Some "400".
Proof. vm_compute. done. Qed.

(** C2, on the run.  Every save stamps the document with the pair drawn
    during that save and rebinds the contract to it.  In the run the
    remote store answers throughout: the create stores [c1] with the key
    [04k1]; the change of title by [Pa] succeeds and stores it with
    [04k2]; the signature of [Pa] after that stores it with [04k3]; the
    cache and the mapping file follow. *)
Theorem C2_key_redrawn_on_every_save :
  (forall render env w c,
     pubKey (fst (saveContractToBDO render env w c))
     = Some (k_pubKey (newKeys env)) /\
     contractPubKeyMap (snd (saveContractToBDO render env w c)) !! uuid c
     = Some (k_pubKey (newKeys env))) /\
  res_status (fst Run.created_up) = 200 /\
  pubKey (Run.doc Run.created_up) = Some "04k1" /\
  contractPubKeyMap (snd Run.created_up) !! "c1" = Some "04k1" /\
  res_status (fst Run.retitled_up) = 200 /\
  pubKey (Run.doc Run.retitled_up) = Some "04k2" /\
  contractPubKeyMap (snd Run.retitled_up) !! "c1" = Some "04k2" /\
  (mappingFile (snd Run.retitled_up) ≫= (.!! "c1")) = Some "04k2" /\
  res_status (fst Run.signed_up) = 200 /\
  pubKey (Run.doc Run.signed_up) = Some "04k3" /\
  contractPubKeyMap (snd Run.signed_up) !! "c1" = Some "04k3".
Proof.
  split.
  - intros render env w c. split; [apply saveContractToBDO_pubKey|].
    apply saveContractToBDO_binding.
  - vm_compute. done.
Qed.

(** Evaluation of the forged step signature: [Pa] passes the gate and
    sends a step signature made with the key of [Pb]. *)
Lemma C3_step_signature_decides_witness :
  fst Run.forged = failure 401 "Invalid step signature" /\
  contractFiles (snd Run.forged) = contractFiles (snd Run.created).
Proof.
  refine (proj1 (proj2 (C3_step_signature_decides Run.verify Run.render
            (Run.env_down "200" Run.K2) (snd Run.created) "c1" Run.forged_body
            (Run.auth_of Run.Pa "uA" "200" "c1") (Run.doc Run.created)
            (snd Run.created) "s1" ("sig<" ++ Run.Pb ++ ">" ++ "200uAc1s1")
            (Run.step1 (Run.doc Run.created)) _)));
    unfold reaches_step; split_and!; vm_compute; reflexivity.
Defined.

(** Evaluation of effect triggering: the step carries a payment
    descriptor, [Pa] has signed, and [Pb] signs. *)
Lemma C4_completion_recomputed_witness :
  fst Run.spell_b = ok (PSigned "c1" "s1" true true) /\
  stored_step (snd Run.spell_b) "c1" "s1"
    (fun step' =>
       signatures step'
       = Some (<[Run.Pb := Some (mkSignatureRecord (Run.step_sig Run.Pb "uB" "300")
                                   "300" Run.Pb "300uBc1s1" "300")]>
                 (Run.sigs (Run.step1 (Run.doc Run.spell_a)))) /\
       completed step' = true /\
       completedAt step' = Some "300").
Proof.
  refine (C4_completion_recomputed Run.verify Run.render
            (Run.env_down "300" Run.K3) (snd Run.spell_a) "c1"
            (Run.sign_body Run.Pb "uB" "300")
            (Run.auth_of Run.Pb "uB" "300" "c1") (Run.doc Run.spell_a)
            (snd Run.spell_a) "s1" (Run.step_sig Run.Pb "uB" "300")
            (Run.step1 (Run.doc Run.spell_a))
            (Run.sigs (Run.step1 (Run.doc Run.spell_a))) _ _ _);
    [unfold reaches_step; split_and!|..]; vm_compute; reflexivity.
Defined.

(** C4 as the specification words it does not hold after an update that
    hands the step back marked completed with both entries [null] (the
    update is answered 200): [Pa] signs, the request succeeds, the stored
    step is completed and the answer says so, and the entry of the
    participant [Pb] is still [null]. *)
Lemma C4_completed_with_a_null_entry :
  res_status (fst Run.updated_done) = 200 /\
  fst Run.signed_done = ok (PSigned "c1" "s1" true false) /\
  participants (Run.doc Run.signed_done) = [Run.Pa; Run.Pb] /\
  find (has_id "s1") (steps (Run.doc Run.signed_done))
  = Some (Run.step1 (Run.doc Run.signed_done)) /\
  completed (Run.step1 (Run.doc Run.signed_done)) = true /\
  Run.sigs (Run.step1 (Run.doc Run.signed_done)) !! Run.Pb = Some None /\
  forallb (not_null (Run.sigs (Run.step1 (Run.doc Run.signed_done))))
          (participants (Run.doc Run.signed_done)) = false.
Proof. vm_compute. done. Qed.

(** Evaluation of a request by [Pc], who is no participant of [c1]: its
    endpoint signature and its step signature both verify. *)
Lemma C5_non_participant_forbidden_witness :
  Run.verify (Run.step_sig Run.Pc "uC" "200") "200uCc1s1" Run.Pc = true /\
  contractFiles (snd Run.outsider) = contractFiles (snd Run.created) /\
  fst Run.outsider = failure 403 "User not authorized for this contract".
Proof.
  split; [vm_compute; reflexivity|].
  refine (C5_non_participant_forbidden Run.verify Run.render
            (Run.env_down "200" Run.K2) (snd Run.created) "c1"
            (Run.sign_body Run.Pc "uC" "200") (Run.doc Run.created)
            (snd Run.created) Run.Pc _ _ _); vm_compute; reflexivity.
Defined.

(** Evaluation of a create request with one participant. *)
Lemma C6_validation_counts_participants_witness :
  Run.created_alone
  = (failure 400 "Contract must have at least 2 participants", emptyWorld).
Proof.
  refine (proj1 (C6_validation_counts_participants Run.verify Run.render
            (Run.env_down "100" Run.K1) emptyWorld (Run.create_with [Run.Pa])
            (Run.auth_of Run.Pa "uA" "100" "") _ _)).
  - vm_compute; reflexivity.
  - simpl. lia.
Defined.

(** C6 as the specification words it does not hold on a participant list
    with the same key twice, nor on one with an empty string: both pass
    validation, the create is answered 200 and the list is stored as
    sent. *)
Lemma C6_duplicate_and_empty_participants_pass :
  validateContract (Run.doc Run.created_twice_a) = None /\
  res_status (fst Run.created_twice_a) = 200 /\
  participants (Run.doc Run.created_twice_a) = [Run.Pa; Run.Pa] /\
  validateContract (Run.doc Run.created_blank) = None /\
  res_status (fst Run.created_blank) = 200 /\
  participants (Run.doc Run.created_blank) = [""; Run.Pa].
Proof. vm_compute. done. Qed.

(** Evaluation of the change of title by [Pa], whose request also sends
    [participants], [creator] and [uuid]. *)
Lemma C7_update_overlays_allowed_fields_witness :
  exists saved,
    fst Run.retitled_up = ok (PContract saved) /\
    contractFiles (snd Run.retitled_up) !! "c1" = Some saved /\
    title saved = Some "New deal" /\
    description saved = "" /\
    steps saved = steps (Run.doc Run.created_up) /\
    status saved = "active" /\
    updatedAt saved = "150" /\
    uuid saved = "c1" /\
    creator saved = Run.Pa /\
    participants saved = [Run.Pa; Run.Pb] /\
    createdAt saved = "100" /\
    productUuid saved = None /\
    bdoLocation saved = None.
Proof.
  refine (proj2 (C7_update_overlays_allowed_fields Run.verify Run.render
            (Run.env_up "150" Run.K2 "bdo-2") (snd Run.created_up) "c1"
            Run.retitle_body (Run.auth_of Run.Pa "uA" "150" "c1")
            (Run.doc Run.created_up) (snd Run.created_up) _ _)).
  - unfold reaches_validation; split_and!; vm_compute; reflexivity.
  - vm_compute; reflexivity.
Defined.

(** C7 as the specification words it does not hold on that update: the
    stored document comes out of it with another public key, another
    remote record id and another rendering than it had. *)
Lemma C7_update_restamps_store_fields :
  res_status (fst Run.retitled_up) = 200 /\
  pubKey (Run.doc Run.created_up) = Some "04k1" /\
  pubKey (Run.doc Run.retitled_up) = Some "04k2" /\
  bdoUuid (Run.doc Run.created_up) = Some "bdo-1" /\
  bdoUuid (Run.doc Run.retitled_up) = Some "bdo-2" /\
  svgContent (Run.doc Run.created_up) = Some "<svg>Deal</svg>" /\
  svgContent (Run.doc Run.retitled_up) = Some "<svg>New deal</svg>".
Proof. vm_compute. done. Qed.

(** Evaluation of the six endpoints on requests whose endpoint signature
    is "forged", in a world with the user [u1] and the contract [c1]. *)
Lemma C8_failed_authentication_status_witness :
  (res_status (fst (post_contract Run.verify Run.render (Run.env_down "100" Run.K2)
                      (snd Run.with_user)
                      (Run.unsigned_request (Run.create_body JNull)))) = 401 /\
   snd (post_contract Run.verify Run.render (Run.env_down "100" Run.K2)
          (snd Run.with_user) (Run.unsigned_request (Run.create_body JNull)))
   = snd Run.with_user) /\
  (res_status (fst (put_contract Run.verify Run.render (Run.env_down "100" Run.K2)
                      (snd Run.with_user) "c1"
                      (Run.unsigned_request (Run.sign_body Run.Pa "uA" "200")))) = 401 /\
   snd (put_contract Run.verify Run.render (Run.env_down "100" Run.K2)
          (snd Run.with_user) "c1"
          (Run.unsigned_request (Run.sign_body Run.Pa "uA" "200")))
   = snd Run.with_user) /\
  (res_status (fst (put_contract_sign Run.verify Run.render (Run.env_down "100" Run.K2)
                      (snd Run.with_user) "c1"
                      (Run.unsigned_request (Run.sign_body Run.Pa "uA" "200")))) = 401 /\
   snd (put_contract_sign Run.verify Run.render (Run.env_down "100" Run.K2)
          (snd Run.with_user) "c1"
          (Run.unsigned_request (Run.sign_body Run.Pa "uA" "200")))
   = snd Run.with_user) /\
  (res_status (fst (delete_contract Run.verify (Run.env_down "100" Run.K2)
                      (snd Run.with_user) "c1"
                      (Run.unsigned_request (Run.sign_body Run.Pa "uA" "200")))) = 401 /\
   snd (delete_contract Run.verify (Run.env_down "100" Run.K2)
          (snd Run.with_user) "c1"
          (Run.unsigned_request (Run.sign_body Run.Pa "uA" "200")))
   = snd Run.with_user) /\
  put_user_create Run.verify (Run.env_down "100" Run.K2) (snd Run.with_user)
    Run.forged_user_body
  = (failure 403 "Authentication failed", snd Run.with_user) /\
  get_user Run.verify (snd Run.with_user) "u1" (Some "60") (Some "forged")
  = (failure 403 "Authentication failed", snd Run.with_user).
Proof.
  refine (C8_failed_authentication_status Run.verify Run.render
            (Run.env_down "100" Run.K2) (snd Run.with_user) "c1"
            (Run.unsigned_request (Run.create_body JNull))
            (Run.unsigned_request (Run.sign_body Run.Pa "uA" "200"))
            Run.forged_user_body "u1" (Some "60") (Some "forged")
            (mkUser "u1" Run.Pa "50" "50") _ _ _ _ _);
    vm_compute; reflexivity.
Defined.

(** C8 as the specification words it does not hold on the two user
    endpoints: a user-create request and a user-fetch request whose
    signature does not verify are answered 403. *)
Lemma C8_user_endpoints_answer_403 :
  Run.verify "forged" ("50" ++ Run.Pa) Run.Pa = false /\
  res_status (fst (put_user_create Run.verify Run.env_user emptyWorld
                     Run.forged_user_body)) = 403 /\
  res_status (fst Run.user_created) = 200 /\
  Run.verify "forged" ("60" ++ "u1") Run.Pa = false /\
  res_status (fst (get_user Run.verify (snd Run.user_created) "u1"
                     (Some "60") (Some "forged"))) = 403.
Proof. vm_compute. done. Qed.

(** Evaluation of a create while the remote store is unreachable, and of
    a read of the contract once the remote store answers again. *)
Lemma C9_remote_outage_not_surfaced_witness :
  exists c,
    fst Run.created = ok (PContract c) /\
    uuid c = "c1" /\
    contractFiles (snd Run.created) !! "c1" = Some c /\
    pubKey c = Some "04k1" /\
    bdoUuid c = None /\
    get_contract (Run.env_up "500" Run.K4 "bdo-9") (snd Run.created) "c1"
    = (ok (PContract c), snd Run.created).
Proof.
  refine (proj1 (C9_remote_outage_not_surfaced Run.verify Run.render
            (Run.env_down "100" Run.K1) emptyWorld (Run.create_body JNull)
            (Run.auth_of Run.Pa "uA" "100" "") "ECONNREFUSED"
            (Run.env_up "500" Run.K4 "bdo-9") _ _)).
  - unfold reaches_store; split_and!; vm_compute; reflexivity.
  - vm_compute; reflexivity.
Defined.

(** Evaluation after an update that hands the step back with an empty
    signature object (answered 200): the one signature of [Pa] completes
    the step, and [Pb], a participant, has no entry in the stored step. *)
Lemma C10_absent_entry_counts_as_signed_witness :
  res_status (fst Run.updated_bare) = 200 /\
  participants (Run.doc Run.signed_bare) = [Run.Pa; Run.Pb] /\
  Run.sigs (Run.step1 (Run.doc Run.signed_bare)) !! Run.Pb = None /\
  fst Run.signed_bare = ok (PSigned "c1" "s1" true false) /\
  stored_step (snd Run.signed_bare) "c1" "s1"
    (fun step' =>
       completed step' = true /\
       completedAt step' = Some "200" /\
       exists m', signatures step' = Some m' /\
         forall p, p <> Run.Pa -> (∅ : SigMap) !! p = None -> m' !! p = None).
Proof.
  split; [vm_compute; reflexivity|].
  split; [vm_compute; reflexivity|].
  split; [vm_compute; reflexivity|].
  refine (proj2 (C10_absent_entry_counts_as_signed Run.verify Run.render
            (Run.env_down "200" Run.K3) (snd Run.updated_bare) "c1"
            (Run.sign_body Run.Pa "uA" "200")
            (Run.auth_of Run.Pa "uA" "200" "c1") (Run.doc Run.updated_bare)
            (snd Run.updated_bare) "s1" (Run.step_sig Run.Pa "uA" "200")
            (Run.step1 (Run.doc Run.updated_bare))
            (Run.sigs (Run.step1 (Run.doc Run.updated_bare))) _ _ _ _ _)).
  - unfold reaches_step; split_and!; vm_compute; reflexivity.
  - vm_compute; reflexivity.
  - vm_compute; reflexivity.
  - vm_compute; reflexivity.
  - intros p _ _. vm_compute. discriminate.
Defined.

(** ** The key registry *)

(** X1.  A pair saved under a non-empty public key is what [getKeys]
    returns for that key, from the cache at once and from the key file
    after a restart, and the second lookup after a restart is served by
    the cache the first one filled: it changes nothing. *)
Theorem X1_saved_keys_are_found w keys :
  nonempty (k_pubKey keys) = true ->
  getKeys (saveKeys w keys) (k_pubKey keys) = (Returns keys, saveKeys w keys) /\
  fst (getKeys (startServer (saveKeys w keys)) (k_pubKey keys)) = Returns keys /\
  getKeys (snd (getKeys (startServer (saveKeys w keys)) (k_pubKey keys)))
          (k_pubKey keys)
  = (Returns keys, snd (getKeys (startServer (saveKeys w keys)) (k_pubKey keys))).
Proof.
  intros Hpk. split; [|split].
  - unfold getKeys. rewrite Hpk. simpl. by rewrite lookup_insert_eq.
  - unfold getKeys. rewrite Hpk. simpl.
    unfold startServer, loadContractPubKeyMappings. simpl.
    destruct (mappingFile w); simpl; by rewrite lookup_empty, lookup_insert_eq.
  - unfold getKeys at 2 3. rewrite Hpk. simpl.
    unfold startServer, loadContractPubKeyMappings. simpl.
    destruct (mappingFile w); simpl; rewrite lookup_empty, lookup_insert_eq;
      unfold getKeys; rewrite Hpk; simpl; by rewrite lookup_insert_eq.
Qed.




(** ** What every request keeps *)

Lemma getKeys_same_files w pk : files (snd (getKeys w pk)) = files w.
Proof.
  unfold getKeys. destruct (negb (nonempty pk)); [done|].
  destruct (keyCache w !! pk); [done|]. by destruct (keyFiles w !! pk).
Qed.

Lemma getContractPubKey_same_files w id :
  files (snd (getContractPubKey w id)) = files w.
Proof.
  unfold getContractPubKey.
  destruct (contractPubKeyMap w !! id); [done|].
  destruct (mappingFile w) as [mappings|] eqn:Hm; [|done].
  destruct (mappings !! id) as [pk|]; [|done].
  destruct (nonempty pk); [|done].
  unfold files. simpl. by rewrite Hm.
Qed.

Section Preservation.

Variable verifySignature : string -> string -> string -> bool.
Variable render : Contract -> string.

(** A property of worlds that the operations on the stores keep. *)
Variable P : World -> Prop.
Hypothesis keeps_getKeys : forall w pk, P w -> P (snd (getKeys w pk)).
Hypothesis keeps_getContractPubKey :
  forall w id, P w -> P (snd (getContractPubKey w id)).
Hypothesis keeps_save :
  forall env w c, P w -> P (snd (saveContractToBDO render env w c)).
Hypothesis keeps_unlink :
  forall w id, P w ->
    P (mkWorld (delete id (contractFiles w)) (userFiles w) (keyFiles w)
               (mappingFile w) (keyCache w) (contractPubKeyMap w)).
Hypothesis keeps_user :
  forall w id user, P w ->
    P (mkWorld (contractFiles w) (<[id := user]> (userFiles w)) (keyFiles w)
               (mappingFile w) (keyCache w) (contractPubKeyMap w)).

Lemma load_keeps env w id : P w -> P (snd (loadContractFromBDO env w id)).
Proof.
  intros HP. unfold loadContractFromBDO.
  destruct (loadContract w id) as [localContract|]; [|done].
  destruct (negb (present (bdoUuid localContract))); [done|].
  pose proof (keeps_getContractPubKey w id HP) as H1.
  destruct (getContractPubKey w id) as [[pk|msg] w1]; simpl in H1; [|done].
  pose proof (keeps_getKeys w1 pk H1) as H2.
  destruct (getKeys w1 pk) as [[keys|msg] w2]; simpl in H2; [|done].
  by destruct (getBDO env) as [[remote|]|msg].
Qed.



End Preservation.










(** Where the contract of a read comes from. *)
Lemma loadContractFromBDO_source env w id c w1 :
  loadContractFromBDO env w id = (Some c, w1) ->
  contractFiles w !! id = Some c \/ getBDO env = Returns (Some c).
Proof.
  unfold loadContractFromBDO, loadContract.
  destruct (contractFiles w !! id) as [localContract|]; [|done].
  destruct (negb (present (bdoUuid localContract))); [intros [= <- _]; by left|].
  destruct (getContractPubKey w id) as [[pk|msg] w']; [|intros [= <- _]; by left].
  destruct (getKeys w' pk) as [[keys|msg] w'']; [|intros [= <- _]; by left].
  destruct (getBDO env) as [[remote|]|msg]; intros [= <- _];
    (by right) || (by left).
Qed.

Lemma Forall_update_first {A} (Q : A -> Prop) (p : A -> bool) (y : A) (l : list A) :
  Forall Q l -> Q y -> Forall Q (update_first p (fun _ => y) l).
Proof.
  intros Hl Hy. induction Hl as [|a l Ha Hl IH]; simpl; [constructor|].
  destruct (p a); by constructor.
Qed.

Lemma update_first_nil {A} (p : A -> bool) (f : A -> A) (l : list A) :
  update_first p f l = [] -> l = [].
Proof. destruct l as [|a l]; [done|]. simpl. by destruct (p a). Qed.

Lemma all_valid_save render env w c :
  all_valid w -> validateContract c = None ->
  all_valid (snd (saveContractToBDO render env w c)).
Proof.
  intros Hall Hc id d. rewrite saveContractToBDO_files.
  destruct (decide (uuid c = id)) as [<-|Hne].
  - rewrite lookup_insert_eq. intros [= <-].
    destruct (saveContractToBDO_frame render env w c)
      as (_ & Ht & _ & Hp & Hs & _).
    apply validateContract_None in Hc. apply validateContract_None.
    by rewrite Ht, Hp, Hs.
  - rewrite lookup_insert_ne by done. apply Hall.
Qed.

Lemma all_valid_loaded env w id c w1 :
  all_valid w -> remote_valid env ->
  loadContractFromBDO env w id = (Some c, w1) ->
  all_valid w1 /\ validateContract c = None.
Proof.
  intros Hall Hremote Hload. split.
  - intros k d. rewrite (loadContractFromBDO_files' _ _ _ _ _ Hload). apply Hall.
  - apply loadContractFromBDO_source in Hload as [Hlocal|Hfetch]; [|by apply Hremote].
    by apply (Hall id).
Qed.

Lemma serve_valid verifySignature render env w r :
  all_valid w -> remote_valid env ->
  all_valid (snd (serve verifySignature render env w r)).
Proof.
  intros Hall Hremote. destruct r as [b|id|id b|id b|id b|b|id ts sig]; simpl.
  - unfold post_contract.
    destruct (verifySessionlessAuth _ _ _) as [sent|auth]; [done|]. cbv zeta.
    destruct (validateContract _) eqn:Hv; [done|].
    match goal with
    | |- context [saveContractToBDO render env w ?c] =>
      assert (Hc : validateContract c = None);
        [|pose proof (all_valid_save render env w c Hall Hc) as Hs;
          by destruct (saveContractToBDO render env w c)]
    end.
    apply validateContract_None in Hv as (Ht & Hp & Hs & Hd).
    apply validateContract_None. simpl in *.
    split; [done|]. split; [done|]. split.
    + intros Hnil. apply fmap_nil_inv in Hnil. done.
    + apply Forall_fmap. eapply Forall_impl; [exact Hd|].
      intros s Hs'. unfold compose, initSignatures.
      by destruct (signatures s).
  - unfold get_contract.
    destruct (loadContractFromBDO env w id) as [[c|] w1] eqn:Hload; simpl.
    + by apply (all_valid_loaded _ _ _ _ _ Hall Hremote) in Hload as [? _].
    + intros k d. rewrite (loadContractFromBDO_files' _ _ _ _ _ Hload). apply Hall.
  - unfold put_contract.
    destruct (verifySessionlessAuth _ _ _) as [sent|auth]; [done|].
    destruct (loadContractFromBDO env w id) as [[c|] w1] eqn:Hload.
    2: { intros k d. simpl.
         rewrite (loadContractFromBDO_files' _ _ _ _ _ Hload). apply Hall. }
    apply (all_valid_loaded _ _ _ _ _ Hall Hremote) in Hload as [Hall1 Hc].
    destruct (negb _); [done|]. cbv zeta.
    destruct (validateContract (set_updatedAt (overlay c b) (t_updated env)))
      eqn:Hv; [done|].
    match goal with
    | |- context [saveContractToBDO render env w1 ?c'] =>
      pose proof (all_valid_save render env w1 c' Hall1 Hv) as Hs;
      by destruct (saveContractToBDO render env w1 c')
    end.
  - unfold put_contract_sign.
    destruct (verifySessionlessAuth _ _ _) as [sent|auth]; [done|].
    destruct (loadContractFromBDO env w id) as [[c|] w1] eqn:Hload.
    2: { intros k d. simpl.
         rewrite (loadContractFromBDO_files' _ _ _ _ _ Hload). apply Hall. }
    apply (all_valid_loaded _ _ _ _ _ Hall Hremote) in Hload as [Hall1 Hc].
    destruct (negb _); [done|].
    destruct (b_stepId b) as [stepId|]; [|done].
    destruct (b_stepSignature b) as [stepSignature|]; [|done].
    destruct (_ && _); [|done].
    destruct (find _ _) as [step|] eqn:Hfind; [|done].
    destruct (negb _); [done|].
    destruct (signatures step) as [m|]; [|done].
    match goal with
    | |- context [saveContractToBDO render env w1 ?c'] =>
      assert (Hc' : validateContract c' = None);
        [|pose proof (all_valid_save render env w1 c' Hall1 Hc') as Hs;
          by destruct (saveContractToBDO render env w1 c')]
    end.
    apply validateContract_None in Hc as (Ht & Hp & Hs & Hd).
    apply validateContract_None. simpl.
    split; [done|]. split; [done|]. split.
    + intros Hnil. by apply update_first_nil in Hnil.
    + apply Forall_update_first; [done|].
      apply find_some in Hfind as [Hin _].
      rewrite Forall_forall in Hd. apply list_elem_of_In, Hd in Hin.
      unfold signStep. by destruct (_ && _).
  - unfold delete_contract.
    destruct (verifySessionlessAuth _ _ _) as [sent|auth]; [done|].
    destruct (loadContractFromBDO env w id) as [[c|] w1] eqn:Hload.
    2: { intros k d. simpl.
         rewrite (loadContractFromBDO_files' _ _ _ _ _ Hload). apply Hall. }
    apply (all_valid_loaded _ _ _ _ _ Hall Hremote) in Hload as [Hall1 Hc].
    destruct (negb _); [done|]. simpl. intros k d Hd. simpl in Hd.
    apply lookup_delete_Some in Hd as [_ Hd]. by apply (Hall1 k).
  - unfold put_user_create. by destruct (_ || _).
  - unfold get_user. destruct (userFiles w !! id); [|done].
    by destruct (_ || _).
Qed.

(** X5.  As long as the remote store hands out no document that fails
    validation, every contract document in every world that a sequence of
    requests reaches from the empty data directory passes validation: it
    has a non-empty title, at least two participants, at least one step,
    and a non-empty description on every step. *)
Theorem X5_documents_stay_valid verifySignature render trace :
  Forall (fun er => remote_valid (fst er)) trace ->
  forall id c,
    contractFiles (run verifySignature render emptyWorld trace) !! id = Some c ->
    present (title c) = true /\ 2 <= List.length (participants c) /\
    steps c <> [] /\
    Forall (fun s => present (step_description s) = true) (steps c).
Proof.
  intros Hremote id c Hc. apply validateContract_None.
  revert id c Hc. change (all_valid (run verifySignature render emptyWorld trace)).
  assert (Hempty : all_valid emptyWorld).
  { intros id c. unfold emptyWorld. simpl. by rewrite lookup_empty. }
  revert Hempty. generalize emptyWorld.
  induction Hremote as [|[env r] rest Henv Hrest IH]; intros w Hall; [done|].
  simpl. apply IH. by apply serve_valid.
Qed.

(** ** Creation *)

Lemma assign_null_plain (ps : list string) (m : SigMap) (inherits : bool)
    (p : string) :
  inherits = false \/ is_Some (m !! "__proto__") ->
  fst (foldl assign_null (m, inherits) ps) !! p
  = if bool_decide (p ∈ ps) then Some None else m !! p.
Proof.
  revert m. induction ps as [|q ps IH]; intros m Hplain; [done|].
  cbn [foldl].
  assert (Hstep : assign_null (m, inherits) q = (<[q := None]> m, inherits)).
  { unfold assign_null. destruct (String.eqb_spec q "__proto__") as [->|Hq];
      [|done].
    destruct Hplain as [->|[x Hx]]; [done|]. rewrite Hx.
    by rewrite andb_false_r. }
  rewrite Hstep, IH.
  - destruct (decide (p = q)) as [->|Hne].
    + rewrite lookup_insert_eq.
      rewrite (bool_decide_eq_true_2 (q ∈ q :: ps)) by set_solver.
      by case_bool_decide.
    + rewrite lookup_insert_ne by done.
      repeat case_bool_decide; try done;
        exfalso; rewrite elem_of_cons in *; naive_solver.
  - destruct Hplain as [->|[x Hx]]; [by left|]. right.
    destruct (decide (q = "__proto__")) as [->|Hq].
    + rewrite lookup_insert_eq. by eexists.
    + rewrite lookup_insert_ne by done. by eexists.
Qed.

Lemma assign_null_other (ps : list string) (m : SigMap) (inherits : bool)
    (p : string) :
  p <> "__proto__" ->
  fst (foldl assign_null (m, inherits) ps) !! p
  = if bool_decide (p ∈ ps) then Some None else m !! p.
Proof.
  intros Hp. revert m inherits.
  induction ps as [|q ps IH]; intros m inherits; [done|].
  cbn [foldl]. unfold assign_null at 2.
  destruct (String.eqb q "__proto__" && inherits
            && match m !! q with Some _ => false | None => true end) eqn:Hq.
  - apply andb_true_iff in Hq as [[Hq%String.eqb_eq _]%andb_true_iff _].
    subst q. rewrite IH.
    repeat case_bool_decide; try done;
      exfalso; rewrite elem_of_cons in *; naive_solver.
  - rewrite IH. destruct (decide (p = q)) as [->|Hne].
    + rewrite lookup_insert_eq.
      rewrite (bool_decide_eq_true_2 (q ∈ q :: ps)) by set_solver.
      by case_bool_decide.
    + rewrite lookup_insert_ne by done.
      repeat case_bool_decide; try done;
        exfalso; rewrite elem_of_cons in *; naive_solver.
Qed.

Lemma proto_count_elem (ps : list string) :
  "__proto__" ∈ ps <-> 1 <= proto_count ps.
Proof.
  unfold proto_count. induction ps as [|q ps IH]; cbn [List.filter List.length].
  - split; [by intros ?%elem_of_nil|lia].
  - rewrite elem_of_cons, IH.
    destruct (String.eqb_spec "__proto__" q) as [->|Hne];
      cbn [List.length]; [split; [lia|by left]|].
    split; [by intros [?|?]|by right].
Qed.

Lemma assign_null_proto (ps : list string) (m : SigMap) :
  m !! "__proto__" = None ->
  fst (foldl assign_null (m, true) ps) !! "__proto__"
  = if (2 <=? proto_count ps)%nat then Some None else None.
Proof.
  revert m. induction ps as [|q ps IH]; intros m Hm; [done|].
  unfold proto_count in *.
  cbn [foldl List.filter]. unfold assign_null at 2.
  rewrite (String.eqb_sym "__proto__" q).
  destruct (String.eqb_spec q "__proto__") as [->|Hne].
  - rewrite Hm. cbn [andb List.length Nat.leb].
    rewrite assign_null_plain by (by left). rewrite Hm.
    pose proof (proto_count_elem ps) as Hin. unfold proto_count in Hin.
    case_bool_decide as Hel.
    + apply Hin in Hel. destruct (List.length _); [lia|done].
    + destruct (List.length _) as [|n]; [done|]. exfalso. apply Hel, Hin. lia.
  - cbn [andb]. apply IH. by rewrite lookup_insert_ne.
Qed.

Section Creation.

Variable verifySignature : string -> string -> string -> bool.
Variable render : Contract -> string.

(** X6.  A create request that passes the gate and validation is answered
    with a contract that has the id drawn for it, the caller as creator,
    the participants as sent and status "active", and one step per step
    sent, in order: the i-th step has order i, is not completed, keeps the
    description sent, has the id sent or else the id drawn for it, and a
    signature object whose entries are all [null]: one for each
    participant and for no other name, except that the name [__proto__]
    has an entry only when it is listed at least twice.  So the keys of
    every signature object are exactly the participants unless
    [__proto__] is listed exactly once. *)
Theorem X6_created_contract_is_well_formed env w b auth :
  reaches_store verifySignature env b auth ->
  exists c,
    fst (post_contract verifySignature render env w b) = ok (PContract c) /\
    contractFiles (snd (post_contract verifySignature render env w b)) !! newUUID env
    = Some c /\
    uuid c = newUUID env /\ creator c = a_pubKey auth /\ status c = "active" /\
    participants c = default [] (b_participants b) /\
    List.length (steps c) = List.length (default [] (b_steps b)) /\
    (forall i raw, default [] (b_steps b) !! i = Some raw ->
       exists s m,
         steps c !! i = Some s /\
         order s = Some i /\ completed s = false /\ completedAt s = None /\
         step_description s = step_description raw /\
         step_id s = Some (or_else (step_id raw) (stepUUID env i)) /\
         signatures s = Some m /\
         (forall p, p <> "__proto__" ->
            m !! p = if bool_decide (p ∈ participants c)
                     then Some None else None) /\
         m !! "__proto__"
         = if (2 <=? proto_count (participants c))%nat
           then Some None else None) /\
    (signatures_complete c <-> proto_count (participants c) <> 1).
Proof.
  intros Hreach. rewrite (create_accepted _ _ _ _ _ _ Hreach). simpl.
  set (c0 := set_steps _ _).
  destruct (saveContractToBDO_frame render env w c0)
    as (Hu & _ & _ & Hp & Hs & _ & _ & _ & _ & Hst & Hcr).
  exists (fst (saveContractToBDO render env w c0)).
  split; [done|].
  split; [change (newUUID env) with (uuid c0); apply saveContractToBDO_stored|].
  rewrite Hu, Hp, Hs, Hst, Hcr. simpl.
  split; [done|]. split; [done|]. split; [done|]. split; [done|].
  split; [by rewrite length_fmap, length_imap|]. split.
  - intros i raw Hraw.
    exists (initSignatures (default [] (b_participants b)) (newStep env i raw)).
    eexists.
    rewrite list_lookup_fmap, list_lookup_imap, Hraw. simpl.
    split; [done|]. repeat (split; [done|]). split.
    + intros p Hp'. rewrite assign_null_other by done. by rewrite lookup_empty.
    + by apply assign_null_proto.
  - set (ps := default [] (b_participants b)).
    assert (Hkeys : forall p,
              is_Some (fst (foldl assign_null ((∅ : SigMap), true) ps) !! p)
              <-> p ∈ ps /\
                  (p = "__proto__" -> 2 <= proto_count ps)).
    { intros p. destruct (decide (p = "__proto__")) as [->|Hne].
      - rewrite assign_null_proto by done.
        rewrite (proto_count_elem ps).
        destruct (Nat.leb_spec 2 (proto_count ps));
          split; try (by eexists); try (intros [_ Hc]; specialize (Hc eq_refl));
          try (by intros [? ?]); try lia.
      - rewrite assign_null_other, lookup_empty by done.
        case_bool_decide; split; try (by eexists); try (by intros [? ?]). }
    unfold signatures_complete. rewrite Hs, Hp. simpl. fold ps. split.
    + intros Hall Hone.
      destruct Hreach as (_ & Hvalid).
      apply validateContract_None in Hvalid as (_ & _ & Hsteps & _).
      simpl in Hsteps.
      destruct (imap (newStep env) (default [] (b_steps b))) as [|s0 rest] eqn:Hi;
        [done|].
      apply Forall_fmap, Forall_cons_1 in Hall as [(m & Hm & Hdom) _].
      assert (Hs0 : s0 ∈ imap (newStep env) (default [] (b_steps b)))
        by (rewrite Hi; left).
      apply elem_of_lookup_imap in Hs0 as (i & raw & -> & _).
      simpl in Hm. injection Hm as <-.
      assert (Hin : "__proto__" ∈ ps) by (apply proto_count_elem; lia).
      apply (elem_of_list_to_set (C := gset string)) in Hin.
      rewrite <- Hdom in Hin. apply elem_of_dom, Hkeys in Hin as [_ Htwo].
      specialize (Htwo eq_refl). lia.
    + intros Hone. apply Forall_fmap, Forall_forall. intros s Hin.
      apply elem_of_lookup_imap in Hin as (i & raw & -> & _).
      eexists. simpl. split; [done|].
      apply set_eq. intros p.
      rewrite elem_of_dom, elem_of_list_to_set, Hkeys. split; [by intros [? _]|].
      intros Hp'. split; [done|]. intros ->.
      apply proto_count_elem in Hp'. lia.
Qed.

End Creation.

(** ** What a request leaves alone *)

Lemma loadContractFromBDO_same_files env w id :
  files (snd (loadContractFromBDO env w id)) = files w.
Proof.
  apply (load_keeps (fun w' => files w' = files w)); [| |done].
  - intros w' pk H. by rewrite getKeys_same_files.
  - intros w' id' H. by rewrite getContractPubKey_same_files.
Qed.

Lemma find_split {A} (p : A -> bool) (l : list A) (x : A) :
  find p l = Some x ->
  exists pre post,
    l = (pre ++ x :: post)%list /\ Forall (fun y => p y = false) pre /\
    forall f, update_first p f l = (pre ++ f x :: post)%list.
Proof.
  induction l as [|a l IH]; simpl; [done|].
  destruct (p a) eqn:Ha.
  - intros [= <-]. by exists [], l.
  - intros Hfind. destruct (IH Hfind) as (pre & post & -> & Hpre & Hup).
    exists (a :: pre), post. split; [done|]. split; [by constructor|].
    intros f. simpl. by rewrite Hup.
Qed.

Section Frames.

Variable verifySignature : string -> string -> string -> bool.
Variable render : Contract -> string.

#[local] Abbreviation serve := (serve verifySignature render).
#[local] Abbreviation put_contract_sign := (put_contract_sign verifySignature render).
#[local] Abbreviation reaches_step := (reaches_step verifySignature).
#[local] Abbreviation step_signature_ok := (step_signature_ok verifySignature).

(** X7.  A request that is answered with an error writes no file: the
    contract documents, the user documents, the key files and the mapping
    file are what they were. *)
Theorem X7_refused_requests_write_nothing env w r :
  res_success (fst (serve env w r)) = false ->
  files (snd (serve env w r)) = files w.
Proof.
  destruct r as [b|id|id b|id b|id b|b|id ts sig]; simpl.
  - unfold post_contract.
    destruct (verifySessionlessAuth _ _ _) as [sent|auth]; [done|]. cbv zeta.
    destruct (validateContract _); [done|].
    by destruct (saveContractToBDO _ _ _ _).
  - unfold get_contract. pose proof (loadContractFromBDO_same_files env w id) as Hl.
    by destruct (loadContractFromBDO env w id) as [[c|] w1].
  - unfold put_contract.
    destruct (verifySessionlessAuth _ _ _) as [sent|auth]; [done|].
    pose proof (loadContractFromBDO_same_files env w id) as Hl.
    destruct (loadContractFromBDO env w id) as [[c|] w1]; [|done].
    destruct (negb _); [done|]. cbv zeta.
    destruct (validateContract _); [done|].
    by destruct (saveContractToBDO _ _ _ _).
  - unfold put_contract_sign.
    destruct (verifySessionlessAuth _ _ _) as [sent|auth]; [done|].
    pose proof (loadContractFromBDO_same_files env w id) as Hl.
    destruct (loadContractFromBDO env w id) as [[c|] w1]; [|done].
    destruct (negb _); [done|].
    destruct (b_stepId b) as [stepId|]; [|done].
    destruct (b_stepSignature b) as [stepSignature|]; [|done].
    destruct (_ && _); [|done].
    destruct (find _ _) as [step|]; [|done].
    destruct (negb _); [done|].
    destruct (signatures step) as [m|]; [|done].
    by destruct (saveContractToBDO _ _ _ _).
  - unfold delete_contract.
    destruct (verifySessionlessAuth _ _ _) as [sent|auth]; [done|].
    pose proof (loadContractFromBDO_same_files env w id) as Hl.
    destruct (loadContractFromBDO env w id) as [[c|] w1]; [|done].
    by destruct (negb _).
  - unfold put_user_create. by destruct (_ || _).
  - unfold get_user. destruct (userFiles w !! id); [|done].
    by destruct (_ || _).
Qed.

(** X8.  A sign request that succeeds rewrites one step and nothing else
    of the contract it read: the stored document has the same id, title,
    description, participants, creator, status and creation time, its
    steps are those read with the first step of the given id replaced,
    and that step keeps its id, description, effect descriptor, order and
    creation time, and every entry of its signature object but the
    caller's. *)
Theorem X8_sign_rewrites_one_step env w id b auth contract w1
    stepId stepSignature step m :
  reaches_step env w id b auth contract w1 stepId stepSignature step ->
  step_signature_ok auth id stepId stepSignature = true ->
  signatures step = Some m ->
  exists saved pre post step' m',
    contractFiles (snd (put_contract_sign env w id b)) !! uuid contract = Some saved /\
    uuid saved = uuid contract /\ title saved = title contract /\
    description saved = description contract /\
    participants saved = participants contract /\
    creator saved = creator contract /\ status saved = status contract /\
    createdAt saved = createdAt contract /\
    updatedAt saved = t_updated env /\
    steps contract = (pre ++ step :: post)%list /\
    steps saved = (pre ++ step' :: post)%list /\
    Forall (fun s => has_id stepId s = false) pre /\
    step_id step' = step_id step /\
    step_description step' = step_description step /\
    magicSpell step' = magicSpell step /\
    order step' = order step /\
    step_createdAt step' = step_createdAt step /\
    signatures step' = Some m' /\
    forall p, p <> a_pubKey auth -> m' !! p = m !! p.
Proof.
  intros Hreach Hv Hm.
  rewrite (sign_accepted _ _ _ _ _ _ _ _ _ _ _ _ _ Hreach Hv Hm). simpl.
  destruct Hreach as (_ & _ & _ & _ & _ & _ & _ & Hfind).
  destruct (find_split _ _ _ Hfind) as (pre & post & Hsteps & Hpre & Hup).
  set (step' := signStep _ _ _ _ _ _).
  set (c' := withStep env contract stepId step').
  destruct (saveContractToBDO_frame render env w1 c')
    as (Hu & Ht & Hd & Hp & Hs & _ & _ & Hca & Hua & Hst & Hcr).
  exists (fst (saveContractToBDO render env w1 c')), pre, post, step'.
  exists (<[a_pubKey auth := Some (newRecord env auth id stepId stepSignature)]> m).
  split; [change (uuid contract) with (uuid c'); apply saveContractToBDO_stored|].
  rewrite Hu, Ht, Hd, Hp, Hs, Hca, Hua, Hst, Hcr. simpl.
  repeat (split; [done|]).
  subst step'. unfold signStep. destruct (_ && _); simpl;
    repeat (split; [done|]); intros p Hne; by rewrite lookup_insert_ne.
Qed.

(** X9.  A sign request that succeeds leaves the number of steps of the
    contract as it was and never lowers the number of completed steps: it
    raises it by one when the signed step becomes complete and leaves it
    otherwise. *)
Theorem X9_sign_never_uncompletes env w id b auth contract w1
    stepId stepSignature step m :
  reaches_step env w id b auth contract w1 stepId stepSignature step ->
  step_signature_ok auth id stepId stepSignature = true ->
  signatures step = Some m ->
  exists saved,
    contractFiles (snd (put_contract_sign env w id b)) !! uuid contract = Some saved /\
    stepCount (summarize saved) = stepCount (summarize contract) /\
    completedSteps (summarize saved)
    = completedSteps (summarize contract)
      + (if negb (completed step)
            && forallb (not_null (<[a_pubKey auth
                                    := Some (newRecord env auth id stepId stepSignature)]> m))
                       (participants contract)
         then 1 else 0).
Proof.
  intros Hreach Hv Hm.
  rewrite (sign_accepted _ _ _ _ _ _ _ _ _ _ _ _ _ Hreach Hv Hm). simpl.
  destruct Hreach as (_ & _ & _ & _ & _ & _ & _ & Hfind).
  destruct (find_split _ _ _ Hfind) as (pre & post & Hsteps & Hpre & Hup).
  set (step' := signStep _ _ _ _ _ _).
  set (c' := withStep env contract stepId step').
  destruct (saveContractToBDO_frame render env w1 c') as (_ & _ & _ & _ & Hs & _).
  exists (fst (saveContractToBDO render env w1 c')).
  split; [change (uuid contract) with (uuid c'); apply saveContractToBDO_stored|].
  unfold summarize. simpl. rewrite Hs. simpl. rewrite Hup, Hsteps.
  rewrite !List.filter_app, !length_app. simpl.
  subst step'. rewrite signStep_completed.
  destruct (completed step), (forallb _ _); simpl; split; lia.
Qed.

(** X10.  When every step of the contract read has a signature object
    whose keys are the participants, the same holds of the document a
    successful sign request stores: signing adds no key and drops none. *)
Theorem X10_sign_keeps_signature_keys env w id b auth contract w1
    stepId stepSignature step :
  reaches_step env w id b auth contract w1 stepId stepSignature step ->
  step_signature_ok auth id stepId stepSignature = true ->
  signatures_complete contract ->
  res_status (fst (put_contract_sign env w id b)) = 200 /\
  exists saved,
    contractFiles (snd (put_contract_sign env w id b)) !! uuid contract = Some saved /\
    signatures_complete saved.
Proof.
  intros Hreach Hv Hcomplete.
  assert (Hstep : exists m : SigMap, signatures step = Some m /\
                    dom m = list_to_set (participants contract)).
  { destruct Hreach as (_ & _ & _ & _ & _ & _ & _ & Hfind).
    apply find_some in Hfind as [Hin _].
    unfold signatures_complete in Hcomplete. rewrite Forall_forall in Hcomplete.
    by apply Hcomplete, list_elem_of_In. }
  destruct Hstep as (m & Hm & Hdom).
  rewrite (sign_accepted _ _ _ _ _ _ _ _ _ _ _ _ _ Hreach Hv Hm). simpl.
  split; [done|].
  destruct Hreach as (_ & _ & Hin & _ & _ & _ & _ & Hfind).
  set (step' := signStep _ _ _ _ _ _).
  set (c' := withStep env contract stepId step').
  destruct (saveContractToBDO_frame render env w1 c') as (_ & _ & _ & Hp & Hs & _).
  exists (fst (saveContractToBDO render env w1 c')).
  split; [change (uuid contract) with (uuid c'); apply saveContractToBDO_stored|].
  unfold signatures_complete. rewrite Hs, Hp. simpl.
  apply Forall_update_first; [done|].
  eexists. split; [apply signStep_signatures|].
  rewrite dom_insert_L, Hdom.
  apply includes_spec in Hin. set_solver.
Qed.

End Frames.

(** ** Authorization, deletion and reads *)

Section Access.

Variable verifySignature : string -> string -> string -> bool.
Variable render : Contract -> string.

#[local] Abbreviation verifySessionlessAuth := (verifySessionlessAuth verifySignature).
#[local] Abbreviation serve := (serve verifySignature render).
#[local] Abbreviation put_contract := (put_contract verifySignature render).
#[local] Abbreviation delete_contract := (delete_contract verifySignature).
#[local] Abbreviation put_user_create := (put_user_create verifySignature).
#[local] Abbreviation get_user := (get_user verifySignature).

(** X11.  For a request that passes the gate on a contract the read
    finds: an update is answered 403 exactly when the caller is neither
    the creator nor a participant, and a delete is answered 403 exactly
    when the caller is not the creator, a participant or not. *)
Theorem X11_who_may_update_and_delete env w id b auth contract w1 :
  verifySessionlessAuth b (Some id) = inr auth ->
  loadContractFromBDO env w id = (Some contract, w1) ->
  (res_status (fst (put_contract env w id b)) = 403
   <-> creator contract <> a_pubKey auth /\
       a_pubKey auth ∉ participants contract) /\
  (res_status (fst (delete_contract env w id b)) = 403
   <-> creator contract <> a_pubKey auth).
Proof.
  intros Hgate Hload. unfold put_contract, delete_contract.
  rewrite Hgate, Hload. split.
  - destruct (String.eqb_spec (creator contract) (a_pubKey auth)) as [Heq|Hne];
      simpl.
    { destruct (validateContract _); [|destruct (saveContractToBDO _ _ _ _)];
        simpl; split; try done; by intros [? _]. }
    destruct (includes _ _) eqn:Hin; simpl.
    + apply includes_spec in Hin.
      destruct (validateContract _); [|destruct (saveContractToBDO _ _ _ _)];
        simpl; split; try done; by intros [_ ?].
    + split; [|done]. intros _. split; [done|].
      intros Hin'%includes_spec. congruence.
  - destruct (String.eqb_spec (creator contract) (a_pubKey auth)) as [Heq|Hne];
      simpl; split; done.
Qed.

(** X12.  When the creator deletes a contract, the answer is 200, any
    later read of that id is answered 404 whatever the remote store says,
    the other contract documents are as they were, and so are the key
    files, the mapping file and the user documents: no key is removed. *)
Theorem X12_delete_then_read env w id b auth contract w1 env' :
  verifySessionlessAuth b (Some id) = inr auth ->
  loadContractFromBDO env w id = (Some contract, w1) ->
  creator contract = a_pubKey auth ->
  fst (delete_contract env w id b) = ok (PDeleted id) /\
  get_contract env' (snd (delete_contract env w id b)) id
  = (failure 404 "Contract not found", snd (delete_contract env w id b)) /\
  (forall id', id' <> id ->
     contractFiles (snd (delete_contract env w id b)) !! id' = contractFiles w !! id') /\
  keyFiles (snd (delete_contract env w id b)) = keyFiles w /\
  mappingFile (snd (delete_contract env w id b)) = mappingFile w /\
  userFiles (snd (delete_contract env w id b)) = userFiles w.
Proof.
  intros Hgate Hload Hcreator.
  pose proof (loadContractFromBDO_same_files env w id) as Hfiles.
  rewrite Hload in Hfiles. unfold files in Hfiles. simpl in Hfiles.
  injection Hfiles as Hc Hu Hk Hm.
  unfold delete_contract. rewrite Hgate, Hload, Hcreator, String.eqb_refl. simpl.
  split; [done|]. split.
  - unfold get_contract, loadContractFromBDO, loadContract. simpl.
    by rewrite lookup_delete_eq.
  - split; [|done]. intros id' Hne. by rewrite lookup_delete_ne, Hc.
Qed.

(** X13.  For an id that is the name of a file, a read is answered 404
    exactly when there is no local document for the id, whatever the
    remote store holds; it writes no file; and the contract it returns is
    the local document, or else a document the remote store returned for
    a local document that has a record id. *)
Theorem X13_read_needs_a_local_document env w id :
  file_name id = true ->
  (fst (get_contract env w id) = failure 404 "Contract not found"
   <-> contractFiles w !! id = None) /\
  files (snd (get_contract env w id)) = files w /\
  forall c, fst (get_contract env w id) = ok (PContract c) ->
    contractFiles w !! id = Some c \/
    (getBDO env = Returns (Some c) /\
     exists l, contractFiles w !! id = Some l /\ present (bdoUuid l) = true).
Proof.
  intros _.
  split; [|split].
  - unfold get_contract, loadContractFromBDO, loadContract.
    destruct (contractFiles w !! id) as [l|]; [|done].
    split; [|done].
    destruct (negb (present (bdoUuid l))); [done|].
    destruct (getContractPubKey w id) as [[pk|msg] w']; [|done].
    destruct (getKeys w' pk) as [[keys|msg] w'']; [|done].
    by destruct (getBDO env) as [[remote|]|msg].
  - unfold get_contract. pose proof (loadContractFromBDO_same_files env w id) as Hl.
    by destruct (loadContractFromBDO env w id) as [[c|] w1].
  - intros c. unfold get_contract, loadContractFromBDO, loadContract.
    destruct (contractFiles w !! id) as [l|]; [|done].
    destruct (present (bdoUuid l)) eqn:Hb; simpl; [|intros [= <-]; by left].
    destruct (getContractPubKey w id) as [[pk|msg] w']; [|intros [= <-]; by left].
    destruct (getKeys w' pk) as [[keys|msg] w'']; [|intros [= <-]; by left].
    destruct (getBDO env) as [[remote|]|msg]; intros [= <-]; [|by left|by left].
    right. split; [done|]. by exists l.
Qed.

(** X14.  What a create or an update answers is what is stored: as long
    as the remote store returns no document, a read of the id of the
    contract in the answer returns that same contract. *)
Theorem X14_read_after_write env w r saved env' :
  (exists b, r = PostContract b) \/ (exists id b, r = PutContract id b) ->
  fst (serve env w r) = ok (PContract saved) ->
  (forall remote, getBDO env' <> Returns (Some remote)) ->
  fst (get_contract env' (snd (serve env w r)) (uuid saved)) = ok (PContract saved).
Proof.
  intros Hwrite Hanswer Hremote.
  assert (Hstored : contractFiles (snd (serve env w r)) !! uuid saved = Some saved).
  { destruct Hwrite as [[b ->]|(id & b & ->)]; simpl in *.
    - revert Hanswer. unfold post_contract.
      destruct (verifySessionlessAuth b None) as [sent|auth] eqn:Hg.
      { apply verifySessionlessAuth_inl in Hg as [_ Hf].
        simpl. intros Hsent. by rewrite Hsent in Hf. }
      cbv zeta. destruct (validateContract _); [done|].
      match goal with
      | |- context [saveContractToBDO render env w ?c] =>
        pose proof (saveContractToBDO_stored render env w c) as Hs;
        destruct (saveContractToBDO_frame render env w c) as (Hu & _);
        destruct (saveContractToBDO render env w c) as [saved' w']
      end.
      simpl in *. intros [= <-]. by rewrite Hu.
    - revert Hanswer. unfold put_contract.
      destruct (verifySessionlessAuth b (Some id)) as [sent|auth] eqn:Hg.
      { apply verifySessionlessAuth_inl in Hg as [_ Hf].
        simpl. intros Hsent. by rewrite Hsent in Hf. }
      destruct (loadContractFromBDO env w id) as [[c|] w1]; [|done].
      destruct (negb _); [done|]. cbv zeta.
      destruct (validateContract _); [done|].
      match goal with
      | |- context [saveContractToBDO render env w1 ?c] =>
        pose proof (saveContractToBDO_stored render env w1 c) as Hs;
        destruct (saveContractToBDO_frame render env w1 c) as (Hu & _);
        destruct (saveContractToBDO render env w1 c) as [saved' w']
      end.
      simpl in *. intros [= <-]. by rewrite Hu. }
  unfold get_contract.
  pose proof (loadContractFromBDO_local env' (snd (serve env w r)) (uuid saved) Hremote)
    as Hread.
  destruct (loadContractFromBDO env' _ _) as [oc w']. simpl in Hread.
  by rewrite Hread, Hstored.
Qed.

End Access.

(** ** Users and listing *)

(** X15.  A user created with a signature that verifies over
    [timestamp + pubKey] is stored under the id drawn for it with the key
    it sent, and is returned by a fetch of that id whose signature
    verifies over [timestamp + uuid] under that key; creating a user
    touches no contract document, key file or mapping file. *)
Theorem X15_user_round_trip verifySignature env w ub ts sig :
  present (uc_signature ub) = true ->
  verifySignature (js_text (uc_signature ub))
                  (js_text (uc_timestamp ub) ++ uc_pubKey ub) (uc_pubKey ub) = true ->
  present sig = true ->
  verifySignature (js_text sig) (js_text ts ++ newUUID env) (uc_pubKey ub) = true ->
  exists user,
    fst (put_user_create verifySignature env w ub) = mkResponse 200 true (PUser user) /\
    u_uuid user = newUUID env /\ u_pubKey user = uc_pubKey ub /\
    get_user verifySignature (snd (put_user_create verifySignature env w ub))
             (newUUID env) ts sig
    = (mkResponse 200 true (PUser user),
       snd (put_user_create verifySignature env w ub)) /\
    contractFiles (snd (put_user_create verifySignature env w ub)) = contractFiles w /\
    keyFiles (snd (put_user_create verifySignature env w ub)) = keyFiles w /\
    mappingFile (snd (put_user_create verifySignature env w ub)) = mappingFile w.
Proof.
  intros Hs Hv Hs' Hv'. unfold put_user_create. rewrite Hs, Hv. simpl.
  eexists. split; [done|]. split; [done|]. split; [done|]. split; [|done].
  unfold get_user. simpl. rewrite lookup_insert_eq. simpl.
  by rewrite Hs', Hv'.
Qed.

Lemma filter_length_le {A} (p : A -> bool) (l : list A) :
  List.length (List.filter p l) <= List.length l.
Proof. induction l as [|a l IH]; simpl; [done|]. destruct (p a); simpl; lia. Qed.

(** X16.  The list of contracts shows a summary exactly for each directory
    entry that has a document, and, when a participant is asked for, only
    for the documents whose participants include it; a summary never
    counts more completed steps than steps, and it counts as many
    completed steps as steps exactly when every step is completed. *)
Theorem X16_listing_shows_stored_contracts entries w participant s :
  (s ∈ get_contracts entries w participant
   <-> exists id c,
         id ∈ entries /\ contractFiles w !! id = Some c /\ s = summarize c /\
         (present participant = true ->
          includes (js_text participant) (participants c) = true)) /\
  (forall c, completedSteps (summarize c) <= stepCount (summarize c) /\
             (completedSteps (summarize c) = stepCount (summarize c)
              <-> Forall (fun st => completed st = true) (steps c))).
Proof.
  split.
  - assert (Hlist : forall s', s' ∈ listContracts entries w
              <-> exists id c, id ∈ entries /\ contractFiles w !! id = Some c /\
                               s' = summarize c).
    { intros s'. unfold listContracts, loadContract. rewrite list_elem_of_omap.
      split.
      - intros (id & Hid & Hs).
        destruct (contractFiles w !! id) as [c|] eqn:Hc; [|done].
        injection Hs as <-. by exists id, c.
      - intros (id & c & Hid & Hc & ->). exists id. by rewrite Hc. }
    unfold get_contracts. destruct (present participant) eqn:Hp.
    + rewrite list_elem_of_In, filter_In, <- list_elem_of_In, Hlist. split.
      * intros [(id & c & Hid & Hc & ->) Hin]. exists id, c. by repeat split.
      * intros (id & c & Hid & Hc & -> & Hin). split; [by exists id, c|].
        by apply Hin.
    + rewrite Hlist. split.
      * intros (id & c & Hid & Hc & ->). exists id, c. by repeat split.
      * intros (id & c & Hid & Hc & -> & _). by exists id, c.
  - intros c. unfold summarize. simpl. split; [apply filter_length_le|].
    induction (steps c) as [|st l IH]; simpl; [by split|].
    pose proof (filter_length_le completed l) as Hle.
    destruct (completed st) eqn:Hst; simpl.
    + split.
      * intros [= Hlen]. constructor; [done|]. by apply IH.
      * intros Hall. inversion Hall; subst. f_equal. by apply IH.
    + split; [lia|]. intros Hall. inversion Hall; congruence.
Qed.

(** ** Spells and the client against the service *)

Lemma segment_app (id tail : string) :
  forallb unreserved (String.list_ascii_of_string id) = true ->
  segment tail = (EmptyString, tail) ->
  segment (id ++ tail) = (id, tail).
Proof.
  intros Hid Htail. induction id as [|c id IH]; [exact Htail|].
  cbn [String.list_ascii_of_string forallb] in Hid.
  apply andb_true_iff in Hid as [Hc Hid].
  change (String c id ++ tail) with (String c (id ++ tail)).
  cbn [segment]. rewrite Hc, (IH Hid). reflexivity.
Qed.

(** The path of a sign request on a URL-safe id reaches the sign route
    with that id. *)
Lemma route_put_sign (id : string) (b : Body) :
  url_safe id = true ->
  route_put ("/contract/" ++ id ++ "/sign") b = Some (PutContractSign id b).
Proof.
  intros [Hne Hid]%andb_true_iff. unfold route_put.
  change (strip_prefix "/contract/" ("/contract/" ++ id ++ "/sign"))
    with (Some (id ++ "/sign")).
  cbv beta iota. rewrite (segment_app id "/sign" Hid eq_refl). by rewrite Hne.
Qed.

Section Callers.

Variable verifySignature : string -> string -> string -> bool.
Variable render : Contract -> string.

#[local] Abbreviation put_contract_sign := (put_contract_sign verifySignature render).
#[local] Abbreviation post_contract := (post_contract verifySignature render).

(** Every answer is a success with status 200 or an error with one of the
    statuses 400, 401, 403, 404 and 500. *)
Lemma serve_status env w r :
  let answer := fst (serve verifySignature render env w r) in
  (res_success answer = true /\ res_status answer = 200) \/
  (res_success answer = false /\ 400 <= res_status answer <= 500).
Proof.
  destruct r as [b|id|id b|id b|id b|b|id ts sig]; simpl.
  - unfold post_contract.
    destruct (verifySessionlessAuth _ _ _) as [sent|auth] eqn:Hg.
    { apply verifySessionlessAuth_inl in Hg as [H1 H2]. right. simpl.
      rewrite H1, H2. lia. }
    cbv zeta. destruct (validateContract _); [right; simpl; lia|].
    destruct (saveContractToBDO _ _ _ _). by left.
  - unfold get_contract.
    destruct (loadContractFromBDO env w id) as [[c|] w1]; [by left|].
    right. simpl. lia.
  - unfold put_contract.
    destruct (verifySessionlessAuth _ _ _) as [sent|auth] eqn:Hg.
    { apply verifySessionlessAuth_inl in Hg as [H1 H2]. right. simpl.
      rewrite H1, H2. lia. }
    destruct (loadContractFromBDO env w id) as [[c|] w1]; [|right; simpl; lia].
    destruct (negb _); [right; simpl; lia|]. cbv zeta.
    destruct (validateContract _); [right; simpl; lia|].
    destruct (saveContractToBDO _ _ _ _). by left.
  - unfold put_contract_sign.
    destruct (verifySessionlessAuth _ _ _) as [sent|auth] eqn:Hg.
    { apply verifySessionlessAuth_inl in Hg as [H1 H2]. right. simpl.
      rewrite H1, H2. lia. }
    destruct (loadContractFromBDO env w id) as [[c|] w1]; [|right; simpl; lia].
    destruct (negb _); [right; simpl; lia|].
    destruct (b_stepId b) as [stepId|]; [|right; simpl; lia].
    destruct (b_stepSignature b) as [stepSignature|]; [|right; simpl; lia].
    destruct (_ && _); [|right; simpl; lia].
    destruct (find _ _) as [step|]; [|right; simpl; lia].
    destruct (negb _); [right; simpl; lia|].
    destruct (signatures step) as [m|]; [|right; simpl; lia].
    destruct (saveContractToBDO _ _ _ _). by left.
  - unfold delete_contract.
    destruct (verifySessionlessAuth _ _ _) as [sent|auth] eqn:Hg.
    { apply verifySessionlessAuth_inl in Hg as [H1 H2]. right. simpl.
      rewrite H1, H2. lia. }
    destruct (loadContractFromBDO env w id) as [[c|] w1]; [|right; simpl; lia].
    destruct (negb _); [right; simpl; lia|]. by left.
  - unfold put_user_create. destruct (_ || _); [right; simpl; lia|by left].
  - unfold get_user. destruct (userFiles w !! id); [|right; simpl; lia].
    destruct (_ || _); [right; simpl; lia|by left].
Qed.

Lemma response_ok_200 env w r :
  response_ok (fst (serve verifySignature render env w r)) = true
  <-> res_status (fst (serve verifySignature render env w r)) = 200.
Proof.
  unfold response_ok.
  destruct (serve_status env w r) as [[_ Hs]|[_ Hs]].
  - rewrite Hs. by split.
  - split; [|intros H; rewrite H in Hs; lia].
    intros [H1 H2]%andb_true_iff. apply Nat.leb_le in H2. lia.
Qed.

(** X17.  The sign spell goes through the same gate as a direct request.
    With its five components present and a contract id made of letters,
    digits, [-] and [_], its request reaches [PUT /contract/:uuid/sign]
    under that id: it leaves the world exactly as that route leaves it
    for the body it builds, it succeeds exactly when that request is
    answered 200, its data are then the data of that answer, and it never
    succeeds unless the caster signature verifies as endpoint signature
    and the step signature verifies, both under the key the spell names. *)
Theorem X17_sign_spell_goes_through_the_gate env w spell :
  (negb (present (co_uuid (components spell)))
   || negb (present (co_stepId (components spell)))
   || negb (present (co_stepSignature (components spell)))
   || negb (present (co_userUUID (components spell)))
   || negb (present (co_pubKey (components spell)))) = false ->
  url_safe (js_text (co_uuid (components spell))) = true ->
  let id := js_text (co_uuid (components spell)) in
  let direct := put_contract_sign env w id (covenantContractSign_body spell) in
  exists cast,
    covenantContractSign verifySignature render env w spell = Some cast /\
    route_put (covenantContractSign_path spell) (covenantContractSign_body spell)
    = Some (PutContractSign id (covenantContractSign_body spell)) /\
    snd cast = snd direct /\
    (spell_status (fst cast) = 200 <-> res_status (fst direct) = 200) /\
    (spell_status (fst cast) = 200 ->
     fst cast = SpellDone None None (res_payload (fst direct)) /\
     signature_verifies verifySignature (covenantContractSign_body spell) (Some id) = true /\
     step_signature_verifies verifySignature id (covenantContractSign_body spell) = true).
Proof.
  intros Hpresent Hsafe id direct.
  pose proof (response_ok_200 env w (PutContractSign id (covenantContractSign_body spell)))
    as Hok. simpl in Hok. fold direct in Hok.
  assert (Hroute :
    route_put (covenantContractSign_path spell) (covenantContractSign_body spell)
    = Some (PutContractSign id (covenantContractSign_body spell)))
    by (by apply route_put_sign).
  assert (Hcast : covenantContractSign verifySignature render env w spell
                  = Some (if response_ok (fst direct)
                          then SpellDone None None (res_payload (fst direct))
                          else SpellRefused "Contract sign failed: " (fst direct),
                          snd direct)).
  { unfold covenantContractSign. rewrite Hpresent, Hroute.
    cbn [serve]. fold direct. destruct direct as [answer w']. simpl.
    by destruct (response_ok answer). }
  eexists. split; [exact Hcast|]. split; [exact Hroute|].
  simpl. split; [done|].
  destruct (response_ok (fst direct)) eqn:Hr; simpl.
  - assert (H200 : res_status (fst direct) = 200) by by apply Hok.
    split; [done|]. intros _. split; [done|].
    pose proof (serve_status env w (PutContractSign id (covenantContractSign_body spell)))
      as Hst. simpl in Hst. fold direct in Hst.
    destruct Hst as [[Hsucc _]|[_ Hge]]; [|lia].
    split.
    + destruct (signature_verifies _ _ _) eqn:Hsv; [done|].
      destruct (signature_fails_gate _ _ _ Hsv) as (sent & Hgate & Hsent).
      subst direct. unfold put_contract_sign in H200. rewrite Hgate in H200.
      simpl in H200. congruence.
    + destruct (step_signature_verifies _ _ _) eqn:Hsv; [done|].
      destruct (sign_needs_step_signature _ render env w id _ Hsv) as [Hf _].
      fold direct in Hf. congruence.
  - split; [|done]. split; [done|]. intros H200. apply Hok in H200. congruence.
Qed.

(** X18.  The lesson spell asks for a contract that always passes
    validation.  With its five components present and a contract
    signature the gate accepts for the student, it succeeds and reports
    the id and public key of a stored contract between teacher and
    student, created by the student, titled after the lesson, tied to
    the lesson as product and location, with the five steps of the
    template, none completed. *)
Theorem X18_lesson_spell_creates_the_template env w spell auth :
  (negb (present (co_teacherPubKey (components spell)))
   || negb (present (co_studentPubKey (components spell)))
   || negb (present (co_lessonBdoPubKey (components spell)))
   || negb (present (co_studentUUID (components spell)))
   || negb (present (co_contractSignature (components spell)))) = false ->
  verifySessionlessAuth verifySignature (purchaseLesson_body spell) None = inr auth ->
  let cast := purchaseLesson verifySignature render env w spell in
  exists c,
    fst cast = SpellDone (Some (newUUID env)) (Some (k_pubKey (newKeys env)))
                         (PContract c) /\
    spell_status (fst cast) = 200 /\
    contractFiles (snd cast) !! newUUID env = Some c /\
    participants c = [js_text (co_teacherPubKey (components spell));
                      js_text (co_studentPubKey (components spell))] /\
    creator c = js_text (co_studentPubKey (components spell)) /\
    title c = Some ("Lesson: " ++ or_else (co_lessonTitle (components spell))
                                          "Untitled Lesson") /\
    productUuid c = co_lessonBdoPubKey (components spell) /\
    bdoLocation c = co_lessonBdoPubKey (components spell) /\
    step_description <$> steps c
    = [Some "Lesson Acquired"; Some "See One"; Some "Do One"; Some "Teach One";
       Some "Grant Nineum Permission"] /\
    Forall (fun s => completed s = false) (steps c).
Proof.
  intros Hpresent Hgate cast.
  assert (Hstudent : co_studentPubKey (components spell) = Some (a_pubKey auth)).
  { by apply verifySessionlessAuth_inr in Hgate as (_ & _ & _ & ?). }
  assert (Hlesson : or_null (co_lessonBdoPubKey (components spell))
                    = co_lessonBdoPubKey (components spell)).
  { unfold or_null.
    destruct (present (co_lessonBdoPubKey (components spell))) eqn:Hl; [done|].
    exfalso. revert Hpresent. simpl. by rewrite !orb_true_r. }
  assert (Hreach : reaches_store verifySignature env (purchaseLesson_body spell) auth).
  { split; [done|]. by unfold validateContract. }
  pose proof (create_accepted verifySignature render env w _ _ Hreach) as Hcreated.
  subst cast. unfold purchaseLesson. rewrite Hpresent. fold post_contract.
  rewrite Hcreated. unfold response_ok. simpl.
  match goal with
  | |- context [saveContractToBDO render env w ?c0] =>
    destruct (saveContractToBDO_frame render env w c0)
      as (Hu & Ht & _ & Hp & Hs & Hpu & Hbl & _ & _ & _ & Hcr);
    pose proof (saveContractToBDO_pubKey render env w c0) as Hpk;
    pose proof (saveContractToBDO_stored render env w c0) as Hst;
    exists (fst (saveContractToBDO render env w c0))
  end.
  rewrite Hu, Ht, Hp, Hs, Hpu, Hbl, Hcr, Hpk. simpl in *.
  rewrite Hlesson.
  split; [done|]. split; [done|]. split; [done|]. split; [done|].
  split; [by rewrite Hstudent|].
  repeat (split; [done|]).
  unfold initSignatures. simpl. repeat constructor.
Qed.

End Callers.

Section ClientAgainstService.

Variable verifySignature : string -> string -> string -> bool.
Variable render : Contract -> string.
Variable sign : string -> string.

(** X19.  The client and the service agree on the two signed texts.  When
    the client has a user id and a public key, the time is not empty,
    what its [sign] produces is a non-empty signature that verifies under
    its public key, and the contract id is made of letters, digits, [-]
    and [_], the request its [signStep] builds reaches the sign route
    under that id, passes the gate as that key, its step signature
    verifies, and so the service never answers it 401. *)
Theorem X19_client_sign_request_verifies cl now id stepId pk env w :
  cl_pubKey cl = Some pk ->
  nonempty pk = true ->
  present (cl_userUUID cl) = true ->
  nonempty now = true ->
  (forall msg, verifySignature (sign msg) msg pk = true) ->
  (forall msg, nonempty (sign msg) = true) ->
  url_safe id = true ->
  exists path b auth stepSignature,
    CovenantClient_signStep sign cl now id stepId = Returns (path, b) /\
    route_put path b = Some (PutContractSign id b) /\
    verifySessionlessAuth verifySignature b (Some id) = inr auth /\
    a_pubKey auth = pk /\
    a_userUUID auth = js_text (cl_userUUID cl) /\
    b_stepId b = Some stepId /\
    b_stepSignature b = Some stepSignature /\
    step_signature_ok verifySignature auth id stepId stepSignature = true /\
    res_status (fst (serve verifySignature render env w (PutContractSign id b)))
    <> 401.
Proof.
  intros Hpk Hpkne Huu Hnow Hsign Hsigne Hsafe.
  destruct (cl_userUUID cl) as [uu|] eqn:Hcl; [|done]. simpl in Huu.
  unfold CovenantClient_signStep, createAuthenticatedPayload.
  rewrite Hcl, Hpk. simpl. rewrite Huu, Hpkne. simpl.
  eexists. eexists. eexists. eexists. split; [done|].
  split; [by apply route_put_sign|].
  match goal with
  | |- verifySessionlessAuth _ ?b _ = _ /\ _ =>
    assert (Hgate :
      verifySessionlessAuth verifySignature b (Some id)
      = inr (mkAuth (authMessage now uu (Some id))
                    (sign (authMessage now uu (Some id))) pk uu now))
  end.
  { unfold verifySessionlessAuth. simpl.
    rewrite Hsigne, Hnow, Huu, Hpkne. simpl.
    change (if nonempty id then now ++ uu ++ id else now ++ uu)
      with (authMessage now uu (Some id)).
    by rewrite Hsign. }
  split; [exact Hgate|]. split; [done|]. split; [done|]. split; [done|].
  split; [done|]. split; [apply Hsign|].
  unfold put_contract_sign. rewrite Hgate. simpl.
  destruct (loadContractFromBDO env w id) as [[c|] w1]; [|done].
  destruct (negb _); [done|].
  destruct (nonempty stepId && _); [|done].
  destruct (find _ _) as [step|]; [|done].
  unfold stepMessage. simpl. rewrite Hsign. simpl.
  destruct (signatures step); [|done].
  by destruct (saveContractToBDO _ _ _ _).
Qed.

(** X20.  The client sends the product and the location of a contract as
    [productUuid] and [bdoLocation], which [POST /contract] does not
    read: whatever [createContract] is given, a contract created from its
    request is stored without product and without location; it has the
    client's key as creator and the description and participants given. *)
Theorem X20_client_create_loses_the_product cl now contractData b env w c :
  CovenantClient_createContract sign cl now contractData = Returns b ->
  fst (post_contract verifySignature render env w b) = ok (PContract c) ->
  productUuid c = None /\ bdoLocation c = None /\
  Some (creator c) = cl_pubKey cl /\
  description c = or_else (cd_description contractData) "" /\
  participants c = default [] (cd_participants contractData) /\
  contractFiles (snd (post_contract verifySignature render env w b)) !! uuid c
  = Some c.
Proof.
  unfold CovenantClient_createContract, createAuthenticatedPayload.
  destruct (_ || _); simpl; [done|]. intros [= <-].
  unfold post_contract.
  destruct (verifySessionlessAuth _ _ _) as [sent|auth] eqn:Hgate; simpl.
  { apply verifySessionlessAuth_inl in Hgate as [_ Hf]. intros Hsent.
    by rewrite Hsent in Hf. }
  apply verifySessionlessAuth_inr in Hgate as (_ & _ & _ & Hpk). simpl in Hpk.
  destruct (validateContract _); [done|].
  match goal with
  | |- context [saveContractToBDO render env w ?c0] =>
    destruct (saveContractToBDO_frame render env w c0)
      as (Hu & _ & Hd & Hp & _ & Hpu & Hbl & _ & _ & _ & Hcr);
    pose proof (saveContractToBDO_stored render env w c0) as Hst;
    destruct (saveContractToBDO render env w c0) as [saved w']
  end.
  simpl in *. intros [= <-].
  rewrite Hpu, Hbl, Hcr, Hd, Hp, Hu, Hpk.
  split; [done|]. split; [done|]. split; [done|].
  split; [|done].
  by destruct (cd_description contractData) as [[|a d]|].
Qed.

End ClientAgainstService.

(** ** The run, checked against these theorems *)

Lemma X1_saved_keys_are_found_witness :
  getKeys (saveKeys emptyWorld Run.K1) "04k1"
  = (Returns Run.K1, saveKeys emptyWorld Run.K1) /\
  fst (getKeys (startServer (saveKeys emptyWorld Run.K1)) "04k1") = Returns Run.K1.
Proof.
  destruct (X1_saved_keys_are_found emptyWorld Run.K1) as (H1 & H2 & _).
  - reflexivity.
  - split; [exact H1|exact H2].
Defined.

Lemma X5_documents_stay_valid_witness :
  exists c,
    contractFiles (run Run.verify Run.render emptyWorld Tour.trace) !! "c1" = Some c /\
    title c = Some "New deal" /\
    present (title c) = true /\ 2 <= List.length (participants c) /\
    steps c <> [] /\
    Forall (fun s => present (step_description s) = true) (steps c).
Proof.
  assert (Hremote : Forall (fun er : Env * Request => remote_valid (fst er)) Tour.trace).
  { repeat constructor; intros c; simpl; try discriminate.
    intros [= <-]. vm_compute. reflexivity. }
  destruct (contractFiles (run Run.verify Run.render emptyWorld Tour.trace) !! "c1")
    as [c|] eqn:Hc; [|vm_compute in Hc; discriminate Hc].
  exists c. split; [reflexivity|]. split.
  - vm_compute in Hc. injection Hc as <-. reflexivity.
  - exact (X5_documents_stay_valid Run.verify Run.render Tour.trace Hremote "c1" c Hc).
Defined.

Lemma X6_created_contract_is_well_formed_witness :
  exists c,
    fst Run.created = ok (PContract c) /\
    participants c = [Run.Pa; Run.Pb] /\
    creator c = Run.Pa /\
    signatures_complete c.
Proof.
  destruct (X6_created_contract_is_well_formed Run.verify Run.render
              (Run.env_down "100" Run.K1) emptyWorld (Run.create_body JNull)
              (Run.auth_of Run.Pa "uA" "100" ""))
    as (c & Hc & _ & _ & Hcr & _ & Hp & _ & _ & Hsig).
  - unfold reaches_store; split_and!; vm_compute; reflexivity.
  - exists c. split_and!; [exact Hc|exact Hp|exact Hcr|].
    apply Hsig. rewrite Hp. vm_compute. discriminate.
Defined.

Lemma X7_refused_requests_write_nothing_witness :
  files (snd Run.forged) = files (snd Run.created).
Proof.
  apply (X7_refused_requests_write_nothing Run.verify Run.render
           (Run.env_down "200" Run.K2) (snd Run.created)
           (PutContractSign "c1" Run.forged_body)).
  vm_compute. reflexivity.
Defined.

Lemma X8_sign_rewrites_one_step_witness :
  exists saved step',
    contractFiles (snd Run.signed_a) !! "c1" = Some saved /\
    title saved = Some "Deal" /\
    participants saved = [Run.Pa; Run.Pb] /\
    steps saved = [step'] /\
    step_description step' = Some "Ship it".
Proof.
  destruct (X8_sign_rewrites_one_step Run.verify Run.render
              (Run.env_down "200" Run.K2) (snd Run.created) "c1"
              (Run.sign_body Run.Pa "uA" "200")
              (Run.auth_of Run.Pa "uA" "200" "c1") (Run.doc Run.created)
              (snd Run.created) "s1" (Run.step_sig Run.Pa "uA" "200")
              (Run.step1 (Run.doc Run.created))
              (Run.sigs (Run.step1 (Run.doc Run.created))))
    as (saved & pre & post & step' & m' & Hs & _ & Ht & _ & Hp & _ & _ & _ & _
        & Hsteps & Hsaved & _ & _ & Hd & _).
  - unfold reaches_step; split_and!; vm_compute; reflexivity.
  - vm_compute; reflexivity.
  - vm_compute; reflexivity.
  - exists saved, step'.
    assert (Hpre : pre = [] /\ post = []).
    { vm_compute in Hsteps. by destruct pre as [|? [|? ?]]; destruct post;
        inversion Hsteps. }
    destruct Hpre as [-> ->].
    split_and!; [exact Hs|exact Ht|exact Hp|exact Hsaved|].
    rewrite Hd. reflexivity.
Defined.

Lemma X9_sign_never_uncompletes_witness :
  exists saved,
    contractFiles (snd Run.signed_b) !! "c1" = Some saved /\
    stepCount (summarize saved) = 1 /\
    completedSteps (summarize saved) = 1 /\
    completedSteps (summarize (Run.doc Run.signed_a)) = 0.
Proof.
  destruct (X9_sign_never_uncompletes Run.verify Run.render
              (Run.env_down "300" Run.K3) (snd Run.signed_a) "c1"
              (Run.sign_body Run.Pb "uB" "300")
              (Run.auth_of Run.Pb "uB" "300" "c1") (Run.doc Run.signed_a)
              (snd Run.signed_a) "s1" (Run.step_sig Run.Pb "uB" "300")
              (Run.step1 (Run.doc Run.signed_a))
              (Run.sigs (Run.step1 (Run.doc Run.signed_a))))
    as (saved & Hs & Hcount & Hdone).
  - unfold reaches_step; split_and!; vm_compute; reflexivity.
  - vm_compute; reflexivity.
  - vm_compute; reflexivity.
  - exists saved. split_and!; [exact Hs|exact Hcount|exact Hdone|reflexivity].
Defined.

Lemma X10_sign_keeps_signature_keys_witness :
  exists saved,
    contractFiles (snd Run.signed_a) !! "c1" = Some saved /\
    signatures_complete saved.
Proof.
  destruct (X10_sign_keeps_signature_keys Run.verify Run.render
              (Run.env_down "200" Run.K2) (snd Run.created) "c1"
              (Run.sign_body Run.Pa "uA" "200")
              (Run.auth_of Run.Pa "uA" "200" "c1") (Run.doc Run.created)
              (snd Run.created) "s1" (Run.step_sig Run.Pa "uA" "200")
              (Run.step1 (Run.doc Run.created)))
    as (_ & saved & Hs & Hc).
  - unfold reaches_step; split_and!; vm_compute; reflexivity.
  - vm_compute; reflexivity.
  - unfold signatures_complete. repeat constructor.
    eexists. split; [vm_compute; reflexivity|]. vm_compute. reflexivity.
  - exists saved. split; [exact Hs|exact Hc].
Defined.

Lemma X11_who_may_update_and_delete_witness :
  res_status (fst (put_contract Run.verify Run.render (Run.env_down "400" Run.K4)
                     (snd Run.created) "c1" (Tour.plain Run.Pc "uC" "400"))) = 403 /\
  res_status (fst (delete_contract Run.verify (Run.env_down "400" Run.K4)
                     (snd Run.created) "c1" (Tour.plain Run.Pb "uB" "400"))) = 403.
Proof.
  destruct (X11_who_may_update_and_delete Run.verify Run.render
              (Run.env_down "400" Run.K4) (snd Run.created) "c1"
              (Tour.plain Run.Pc "uC" "400") (Run.auth_of Run.Pc "uC" "400" "c1")
              (Run.doc Run.created) (snd Run.created))
    as [Hupdate _]; [vm_compute; reflexivity|vm_compute; reflexivity|].
  destruct (X11_who_may_update_and_delete Run.verify Run.render
              (Run.env_down "400" Run.K4) (snd Run.created) "c1"
              (Tour.plain Run.Pb "uB" "400") (Run.auth_of Run.Pb "uB" "400" "c1")
              (Run.doc Run.created) (snd Run.created))
    as [_ Hdelete]; [vm_compute; reflexivity|vm_compute; reflexivity|].
  split.
  - apply Hupdate. split; [vm_compute; discriminate|].
    intros Hin%list_elem_of_In. vm_compute in Hin.
    destruct Hin as [Hin|[Hin|[]]]; discriminate Hin.
  - apply Hdelete. vm_compute; discriminate.
Defined.

Lemma X12_delete_then_read_witness :
  fst Tour.deleted = ok (PDeleted "c1") /\
  fst (get_contract (Run.env_up "600" Run.K4 "bdo-1") (snd Tour.deleted) "c1")
  = failure 404 "Contract not found" /\
  keyFiles (snd Tour.deleted) = keyFiles (snd Run.created).
Proof.
  destruct (X12_delete_then_read Run.verify
              (Run.env_down "500" Run.K4) (snd Run.created) "c1"
              (Tour.plain Run.Pa "uA" "500") (Run.auth_of Run.Pa "uA" "500" "c1")
              (Run.doc Run.created) (snd Run.created)
              (Run.env_up "600" Run.K4 "bdo-1"))
    as (Hd & Hr & _ & Hk & _).
  - vm_compute; reflexivity.
  - vm_compute; reflexivity.
  - vm_compute; reflexivity.
  - split_and!; [exact Hd| |exact Hk].
    change (fst (get_contract (Run.env_up "600" Run.K4 "bdo-1") (snd Tour.deleted) "c1")
            = fst (failure 404 "Contract not found", snd Tour.deleted)).
    exact (f_equal fst Hr).
Defined.

Lemma X13_read_needs_a_local_document_witness :
  fst (get_contract (Run.env_up "600" Run.K4 "bdo-1") (snd Run.created) "c2")
  = failure 404 "Contract not found" /\
  files (snd (get_contract (Run.env_up "600" Run.K4 "bdo-1") (snd Run.created) "c1"))
  = files (snd Run.created).
Proof.
  destruct (X13_read_needs_a_local_document
              (Run.env_up "600" Run.K4 "bdo-1") (snd Run.created) "c2")
    as ((_ & Hmissing) & _); [vm_compute; reflexivity|].
  destruct (X13_read_needs_a_local_document
              (Run.env_up "600" Run.K4 "bdo-1") (snd Run.created) "c1")
    as (_ & Hfiles & _); [vm_compute; reflexivity|].
  split; [apply Hmissing; vm_compute; reflexivity|exact Hfiles].
Defined.

Lemma X14_read_after_write_witness :
  fst (get_contract (Run.env_down "700" Run.K4) (snd Run.created) "c1")
  = ok (PContract (Run.doc Run.created)).
Proof.
  apply (X14_read_after_write Run.verify Run.render
           (Run.env_down "100" Run.K1) emptyWorld
           (PostContract (Run.create_body JNull)) (Run.doc Run.created)
           (Run.env_down "700" Run.K4)).
  - left. eexists. reflexivity.
  - vm_compute; reflexivity.
  - intros remote. simpl. discriminate.
Defined.

Lemma X15_user_round_trip_witness :
  exists user,
    fst Run.user_created = mkResponse 200 true (PUser user) /\
    u_pubKey user = Run.Pa /\
    fst (get_user Run.verify (snd Run.user_created) "u1" (Some "60")
                  (Some ("sig<" ++ Run.Pa ++ ">" ++ "60" ++ "u1")))
    = mkResponse 200 true (PUser user).
Proof.
  destruct (X15_user_round_trip Run.verify Run.env_user emptyWorld Run.user_body
              (Some "60") (Some ("sig<" ++ Run.Pa ++ ">" ++ "60" ++ "u1")))
    as (user & Hc & _ & Hk & Hg & _).
  - reflexivity.
  - vm_compute; reflexivity.
  - reflexivity.
  - vm_compute; reflexivity.
  - exists user. split_and!; [exact Hc|exact Hk|].
    exact (f_equal fst Hg).
Defined.

Lemma X17_sign_spell_goes_through_the_gate_witness :
  exists cast,
    Tour.spell_signed = Some cast /\
    snd cast = snd Run.signed_a /\
    (spell_status (fst cast) = 200 <-> res_status (fst Run.signed_a) = 200).
Proof.
  destruct (X17_sign_spell_goes_through_the_gate Run.verify Run.render
              (Run.env_down "200" Run.K2) (snd Run.created) Tour.sign_spell)
    as (cast & Hcast & _ & Hw & Hiff & _).
  - vm_compute; reflexivity.
  - vm_compute; reflexivity.
  - exists cast. split_and!; [exact Hcast|exact Hw|exact Hiff].
Defined.

Lemma X18_lesson_spell_creates_the_template_witness :
  exists c,
    fst Tour.lesson_bought = SpellDone (Some "c1") (Some "04k1") (PContract c) /\
    participants c = [Run.Pa; Run.Pb] /\
    creator c = Run.Pb /\
    title c = Some "Lesson: Knots" /\
    List.length (steps c) = 5.
Proof.
  destruct (X18_lesson_spell_creates_the_template Run.verify Run.render
              (Run.env_down "100" Run.K1) emptyWorld Tour.lesson_spell
              (Run.auth_of Run.Pb "uB" "100" ""))
    as (c & Hc & _ & _ & Hp & Hcr & Ht & _ & _ & Hsteps & _).
  - vm_compute; reflexivity.
  - vm_compute; reflexivity.
  - exists c. split_and!; [exact Hc|exact Hp|exact Hcr|exact Ht|].
    apply (f_equal (@List.length _)) in Hsteps.
    rewrite length_fmap in Hsteps. exact Hsteps.
Defined.

Lemma X19_client_sign_request_verifies_witness :
  exists b,
    CovenantClient_signStep Tour.client_sign Tour.client "200" "c1" "s1"
    = Returns ("/contract/c1/sign", b) /\
    route_put "/contract/c1/sign" b = Some (PutContractSign "c1" b) /\
    res_status (fst (put_contract_sign Run.verify Run.render
                       (Run.env_down "200" Run.K2) (snd Run.created) "c1" b)) = 200.
Proof.
  destruct (X19_client_sign_request_verifies Run.verify Run.render Tour.client_sign
              Tour.client "200" "c1" "s1" Run.Pa
              (Run.env_down "200" Run.K2) (snd Run.created))
    as (path & b & auth & stepSignature & Hb & Hroute & _).
  - reflexivity.
  - reflexivity.
  - reflexivity.
  - reflexivity.
  - intros msg. unfold Run.verify, Tour.client_sign. apply String.eqb_refl.
  - intros msg. reflexivity.
  - vm_compute; reflexivity.
  - assert (Hsent : CovenantClient_signStep Tour.client_sign Tour.client "200" "c1" "s1"
                    = Returns (path, b)) by exact Hb.
    vm_compute in Hsent. injection Hsent as <- <-.
    eexists. split_and!; vm_compute; reflexivity.
Defined.

Lemma X20_client_create_loses_the_product_witness :
  cd_productUuid Tour.contract_data = Some "prod-1" /\
  productUuid (Run.doc Tour.client_created) = None /\
  bdoLocation (Run.doc Tour.client_created) = None /\
  creator (Run.doc Tour.client_created) = Run.Pa.
Proof.
  destruct (X20_client_create_loses_the_product Run.verify Run.render
              Tour.client_sign Tour.client "100" Tour.contract_data
              Tour.client_create_body (Run.env_down "100" Run.K1) emptyWorld
              (Run.doc Tour.client_created))
    as (Hp & Hl & Hcr & _).
  - vm_compute; reflexivity.
  - vm_compute; reflexivity.
  - split_and!; [reflexivity|exact Hp|exact Hl|].
    apply (inj Some). exact Hcr.
Defined.
